(** * Response normalisation and context assembly of the Bedrock chat front-end

    A shallow embedding of [bedrock_utils.py] and of the chat-turn handler of
    [app.py], with the properties stated about them.

    - [Module Py]: the Python values the code manipulates (what [json.loads]
      and the service clients hand back), the builtins the code applies to
      them ([bool], [str], [repr], [json.dumps], [str.upper], [in], slicing)
      and exceptions as an error result.
    - [Module bedrock_utils]: [_normalize_retrieval_item],
      [query_knowledge_base], [generate_response], [valid_prompt].
    - [Module app]: the handler of one chat turn.
    - [Module run_sql_rdsdata], [Module diagnose_kb], [Module test_kb_query]:
      the pure parts of three scripts (the SQL statement splitter, the bucket
      name, the context of the end-to-end run).

    Text is modelled by [string]; it is read as ASCII text (one [ascii] per
    code point), which is where [str.upper], [str.lower] and the escapes of
    [repr] and [json.dumps] below agree with Python's. *)

From Stdlib Require Import String Ascii List ZArith Bool Arith Lia DecimalString.
Import ListNotations.
Local Open Scope list_scope.
Local Open Scope string_scope.
#[local] Set Warnings "-register-all".

(* ===================================================================== *)
(** * Python values and builtins *)
(* ===================================================================== *)

Module Py.

(** A Python [float] is observed by the code in two ways only: its truth
    value and its printed form. It is represented by these two observations
    ([float_repr] is [float.__repr__], which identifies the float). *)
Record pyfloat : Type := { float_repr : string; float_is_zero : bool }.

(** The values of parsed JSON and of the service responses. A [dict] keeps
    its insertion order (it is what [json.dumps] and iteration follow), so it
    is an association list; a lookup takes the first binding of a key. *)
Inductive value : Type :=
| VNone
| VBool (b : bool)
| VInt (z : Z)
| VFloat (f : pyfloat)
| VStr (s : string)
| VList (l : list value)
| VDict (d : list (string * value)).

(** Exceptions, by the classes the code distinguishes or provokes; each
    carries the text [str(e)] gives. All are subclasses of [Exception]. *)
Inductive exn : Type :=
| ClientError (msg : string)
| AttributeError (msg : string)
| TypeError (msg : string)
| OtherException (msg : string).

Definition exn_str (e : exn) : string :=
  match e with
  | ClientError m | AttributeError m | TypeError m | OtherException m => m
  end.

(** The outcome of an expression that may raise. *)
Inductive result (A : Type) : Type :=
| Ok (a : A)
| Raise (e : exn).
Arguments Ok {A} a.
Arguments Raise {A} e.

Definition bind {A B : Type} (r : result A) (k : A -> result B) : result B :=
  match r with
  | Ok a => k a
  | Raise e => Raise e
  end.

Declare Scope py_scope.
Delimit Scope py_scope with py.
Notation "'let*' x ':=' e 'in' k" := (bind e (fun x => k))
  (at level 10, x name, e at level 100, k at level 200) : py_scope.

(** [bool(v)]. *)
Definition truthy (v : value) : bool :=
  match v with
  | VNone => false
  | VBool b => b
  | VInt z => negb (z =? 0)%Z
  | VFloat f => negb (float_is_zero f)
  | VStr s => negb (s =? "")
  | VList l => match l with [] => false | _ :: _ => true end
  | VDict d => match d with [] => false | _ :: _ => true end
  end.

(** [x or y], where evaluating either side may raise: [y] is looked at only
    when [x] is falsy, and the last operand is returned as it is. *)
Definition py_or (x y : result value) : result value :=
  match x with
  | Ok v => if truthy v then Ok v else y
  | Raise e => Raise e
  end.
Notation "x 'or' y" := (py_or x y) (at level 85, right associativity) : py_scope.

(** [type(v).__name__]. *)
Definition type_name (v : value) : string :=
  match v with
  | VNone => "NoneType"
  | VBool _ => "bool"
  | VInt _ => "int"
  | VFloat _ => "float"
  | VStr _ => "str"
  | VList _ => "list"
  | VDict _ => "dict"
  end.

Definition no_attribute (v : value) (attr : string) : exn :=
  AttributeError ("'" ++ type_name v ++ "' object has no attribute '" ++ attr ++ "'").

(** ** Dictionaries *)

Fixpoint lookup (d : list (string * value)) (k : string) : option value :=
  match d with
  | [] => None
  | (k', v) :: d' => if k' =? k then Some v else lookup d' k
  end.

(** [d.get(k)] on a dict [d]: the value, or [None] when the key is absent. *)
Definition dict_get (d : list (string * value)) (k : string) : value :=
  match lookup d k with Some v => v | None => VNone end.

(** [v.get(k)] on any object: only a dict has the method. *)
Definition get (v : value) (k : string) : result value :=
  match v with
  | VDict d => Ok (dict_get d k)
  | _ => Raise (no_attribute v "get")
  end.

Definition is_dict (v : value) : bool := match v with VDict _ => true | _ => false end.
Definition is_str (v : value) : bool := match v with VStr _ => true | _ => false end.

(** ** Strings *)

Definition chr (n : nat) : string := String (ascii_of_nat n) "".
Definition newline : string := chr 10.
Definition dquote : string := chr 34.
Definition backslash : string := chr 92.

(** [len(s) == 0]. *)
Definition is_empty (s : string) : bool := (s =? "").

(** [sub in s] for two strings. *)
Fixpoint str_contains (sub s : string) : bool :=
  prefix sub s ||
  match s with
  | EmptyString => false
  | String _ s' => str_contains sub s'
  end.

Definition upper_char (c : ascii) : ascii :=
  let n := nat_of_ascii c in
  if ((97 <=? n) && (n <=? 122))%nat then ascii_of_nat (n - 32) else c.

Definition lower_char (c : ascii) : ascii :=
  let n := nat_of_ascii c in
  if ((65 <=? n) && (n <=? 90))%nat then ascii_of_nat (n + 32) else c.

Fixpoint map_chars (f : ascii -> ascii) (s : string) : string :=
  match s with
  | EmptyString => EmptyString
  | String c s' => String (f c) (map_chars f s')
  end.

(** [s.upper()] and [s.lower()]. *)
Definition upper : string -> string := map_chars upper_char.
Definition lower : string -> string := map_chars lower_char.

(** [s[:n]]. *)
Definition take (n : nat) (s : string) : string := substring 0 n s.

(** ** Printing *)

Definition hex_digit (n : nat) : string :=
  match n with
  | 10 => "a" | 11 => "b" | 12 => "c" | 13 => "d" | 14 => "e" | 15 => "f"
  | _ => chr (48 + n)
  end.

Definition hex2 (n : nat) : string := hex_digit (n / 16) ++ hex_digit (n mod 16).

(** [repr] of an [int]. *)
Definition repr_int (z : Z) : string := NilZero.string_of_int (Z.to_int z).

Fixpoint flat_map_chars (f : ascii -> string) (s : string) : string :=
  match s with
  | EmptyString => EmptyString
  | String c s' => f c ++ flat_map_chars f s'
  end.

(** [repr] of a [str]: single quotes, unless the text has a single quote and
    no double quote. *)
Definition repr_escape (quote : string) (c : ascii) : string :=
  let n := nat_of_ascii c in
  let s := String c "" in
  if s =? backslash then backslash ++ backslash
  else if s =? quote then backslash ++ quote
  else if (n =? 9)%nat then backslash ++ "t"
  else if (n =? 10)%nat then backslash ++ "n"
  else if (n =? 13)%nat then backslash ++ "r"
  else if ((n <? 32) || (n =? 127))%nat then backslash ++ "x" ++ hex2 n
  else s.

Definition repr_str (s : string) : string :=
  let quote := if str_contains "'" s && negb (str_contains dquote s) then dquote else "'" in
  quote ++ flat_map_chars (repr_escape quote) s ++ quote.

(** [repr(v)]. *)
Fixpoint repr (v : value) : string :=
  match v with
  | VNone => "None"
  | VBool true => "True"
  | VBool false => "False"
  | VInt z => repr_int z
  | VFloat f => float_repr f
  | VStr s => repr_str s
  | VList l => "[" ++ String.concat ", " (map repr l) ++ "]"
  | VDict d =>
      "{" ++ String.concat ", " (map (fun kv => repr_str (fst kv) ++ ": " ++ repr (snd kv)) d) ++ "}"
  end.

(** [str(v)]. *)
Definition str (v : value) : string :=
  match v with
  | VStr s => s
  | _ => repr v
  end.

(** The string encoder of [json.dumps] (with [ensure_ascii], the default). *)
Definition json_escape (c : ascii) : string :=
  let n := nat_of_ascii c in
  let s := String c "" in
  if s =? dquote then backslash ++ dquote
  else if s =? backslash then backslash ++ backslash
  else if (n =? 10)%nat then backslash ++ "n"
  else if (n =? 13)%nat then backslash ++ "r"
  else if (n =? 9)%nat then backslash ++ "t"
  else if (n =? 8)%nat then backslash ++ "b"
  else if (n =? 12)%nat then backslash ++ "f"
  else if ((n <? 32) || (126 <? n))%nat then backslash ++ "u00" ++ hex2 n
  else s.

Definition json_str (s : string) : string :=
  dquote ++ flat_map_chars json_escape s ++ dquote.

Definition json_float (f : pyfloat) : string :=
  let r := float_repr f in
  if r =? "nan" then "NaN"
  else if r =? "inf" then "Infinity"
  else if r =? "-inf" then "-Infinity"
  else r.

(** [json.dumps(v)] with the default separators. Every [value] is
    serialisable, so the call does not raise. *)
Fixpoint json_dumps (v : value) : string :=
  match v with
  | VNone => "null"
  | VBool true => "true"
  | VBool false => "false"
  | VInt z => repr_int z
  | VFloat f => json_float f
  | VStr s => json_str s
  | VList l => "[" ++ String.concat ", " (map json_dumps l) ++ "]"
  | VDict d =>
      "{" ++ String.concat ", " (map (fun kv => json_str (fst kv) ++ ": " ++ json_dumps (snd kv)) d) ++ "}"
  end.

(** [iter(v)], as a [for] loop or a comprehension walks it: the elements of
    a list, the keys of a dict, the characters of a string; anything else is
    not iterable. *)
Fixpoint chars (s : string) : list value :=
  match s with
  | EmptyString => []
  | String c s' => VStr (String c "") :: chars s'
  end.

Definition iter (v : value) : result (list value) :=
  match v with
  | VList l => Ok l
  | VDict d => Ok (map (fun kv => VStr (fst kv)) d)
  | VStr s => Ok (chars s)
  | _ => Raise (TypeError ("'" ++ type_name v ++ "' object is not iterable"))
  end.

(** A comprehension [[f(x) for x in l]] whose body may raise. *)
Fixpoint map_result {A B : Type} (f : A -> result B) (l : list A) : result (list B) :=
  match l with
  | [] => Ok []
  | x :: l' =>
      match f x with
      | Ok y => match map_result f l' with Ok ys => Ok (y :: ys) | Raise e => Raise e end
      | Raise e => Raise e
      end
  end.

End Py.

(* ===================================================================== *)
(** * bedrock_utils.py *)
(* ===================================================================== *)

Module bedrock_utils.
Import Py.
Local Open Scope py_scope.

(** ** The two service clients

    [bedrock_kb] (the agent runtime) and [bedrock] (the model runtime) are
    the outside world. A call either raises or hands back a value; what it
    does may depend on the calls made before it. Every call is appended to a
    log, which is the state the functions below thread. *)

Inductive call : Type :=
| Retrieve (knowledgeBaseId query : string) (numberOfResults : Z)
| InvokeModel (modelId body : string).

Record clients : Type := {
  (** [bedrock_kb.retrieve(knowledgeBaseId=, retrievalQuery={'text': },
      retrievalConfiguration=...)]: the response, or an exception. *)
  bedrock_kb_retrieve : list call -> string -> string -> Z -> result value;
  (** [bedrock.invoke_model(modelId=, contentType=, accept=, body=)] followed
      by reading the response body and [json.loads]: the parsed data, or the
      exception of whichever step failed. *)
  bedrock_invoke_model : list call -> string -> string -> result value
}.

(** A computation that calls the clients: from the log so far to its value
    and the log after. *)
Definition io (A : Type) : Type := list call -> A * list call.

Definition ret {A : Type} (a : A) : io A := fun log => (a, log).

Definition io_bind {A B : Type} (m : io A) (k : A -> io B) : io B :=
  fun log => let (a, log') := m log in k a log'.

Notation "'do' x '<-' m ';' k" := (io_bind m (fun x => k))
  (at level 10, x name, m at level 100, k at level 200) : py_scope.

Definition retrieve (c : clients) (kb_id query : string) (top_k : Z) : io (result value) :=
  fun log => (bedrock_kb_retrieve c log kb_id query top_k, (log ++ [Retrieve kb_id query top_k])%list).

Definition invoke_model (c : clients) (model_id body : string) : io (result value) :=
  fun log => (bedrock_invoke_model c log model_id body, (log ++ [InvokeModel model_id body])%list).

(** ** _normalize_retrieval_item *)

(** The dict the function returns: keys id, text, metadata, score. *)
Definition passage (doc_id text metadata score : value) : value :=
  VDict [("id", doc_id); ("text", text); ("metadata", metadata); ("score", score)].

(** [d.get('text') or d.get('documentText') or ''] on a dict [d]. *)
Definition nested_text (d : list (string * value)) : result value :=
  Ok (dict_get d "text") or Ok (dict_get d "documentText") or Ok (VStr "").

Definition _normalize_retrieval_item (item : value) : result value :=
  match item with
  | VDict d =>
      let item_get k := Ok (dict_get d k) in
      let* doc := item_get "document" or Ok (VDict []) in
      let* content := item_get "content" or item_get "contents" in
      let* text :=
        match content with
        | VDict c => nested_text c
        | VList (first :: _) =>
            match first with
            | VDict f => nested_text f
            | _ => Ok (VStr "")
            end
        | _ => Ok (VStr "")
        end in
      let* text :=
        if negb (truthy text)
        then item_get "text" or item_get "documentText" or get doc "text" or Ok (VStr "")
        else Ok text in
      let* doc_id := item_get "documentId" or item_get "id" or get doc "id" in
      let* metadata := item_get "metadata" or get doc "metadata" or Ok (VDict []) in
      let* score := item_get "score" or item_get "similarity" or item_get "relevanceScore" in
      Ok (passage doc_id text metadata score)
  | _ => Ok (passage VNone (VStr (str item)) (VDict []) VNone)
  end.

(** ** query_knowledge_base *)

(** The loop over [('items', 'results', 'hits')]: the first key that is in
    the dict and holds a list replaces [results]; with no such key [results]
    stays what it was. *)
Fixpoint nested_results (d : list (string * value)) (keys : list string) (results : value) : value :=
  match keys with
  | [] => results
  | k :: keys' =>
      match lookup d k with
      | Some (VList l) => VList l
      | _ => nested_results d keys' results
      end
  end.

(** Line 64: the batch, under the first of four keys that holds a truthy
    value. *)
Definition extract_results (response : value) : result value :=
  get response "retrievalResults" or get response "results" or get response "items"
    or get response "hits" or Ok (VList []).

(** The body of the [try] after the call: extraction of the batch and the
    comprehension over it. *)
Definition normalize_response (response : value) : result (list value) :=
  let* results := extract_results response in
  let results :=
    match results with
    | VDict d => nested_results d ["items"; "results"; "hits"] results
    | _ => results
    end in
  let* items := iter (if truthy results then results else VList []) in
  map_result _normalize_retrieval_item items.

(** Both [except] clauses print the error and return the empty list. *)
Definition query_knowledge_base (c : clients) (query kb_id : string) (top_k : Z) : io (list value) :=
  do response <- retrieve c kb_id query top_k;
  ret match bind response normalize_response with
      | Ok normalized => normalized
      | Raise (ClientError _) => []
      | Raise _ => []
      end.

(** ** generate_response *)

(** Lines 91-108: the request payload, by model family. [model_id] is a
    string, on which [model_id or ''] is the identity. *)
Definition build_payload (prompt model_id : string) (temperature top_p : value) (max_tokens : Z) : value :=
  let lower_id := lower model_id in
  if str_contains "anthropic." lower_id || str_contains "claude" lower_id then
    let messages :=
      VList [VDict [("role", VStr "user");
                    ("content", VList [VDict [("type", VStr "text"); ("text", VStr prompt)]])]] in
    VDict [("anthropic_version", VStr "bedrock-2023-05-31");
           ("messages", messages);
           ("max_tokens", VInt max_tokens);
           ("temperature", temperature);
           ("top_p", top_p)]
  else
    VDict [("input", VStr prompt);
           ("max_tokens", VInt max_tokens);
           ("temperature", temperature);
           ("top_p", top_p)].

(** [for key in keys: if key in d and isinstance(d[key], str): return d[key]]:
    the returned value, or nothing when the loop runs out. *)
Fixpoint first_str (d : list (string * value)) (keys : list string) : option value :=
  match keys with
  | [] => None
  | key :: keys' =>
      match lookup d key with
      | Some (VStr s) => Some (VStr s)
      | _ => first_str d keys'
      end
  end.

(** Lines 127-130: a non-empty [content] list whose first element is a dict
    with a [text] key. *)
Definition content_text (d : list (string * value)) : option value :=
  match lookup d "content" with
  | Some (VList (VDict first :: _)) => lookup first "text"
  | _ => None
  end.

(** Lines 138-143: a non-empty [results] list whose first element is a dict. *)
Definition results_text (d : list (string * value)) : option value :=
  match lookup d "results" with
  | Some (VList (VDict r0 :: _)) => first_str r0 ["output"; "text"; "generatedText"]
  | _ => None
  end.

(** Lines 126-146: the text taken out of the parsed response. *)
Definition extract_text (data : value) : value :=
  match data with
  | VDict d =>
      match content_text d with
      | Some t => t
      | None =>
          match first_str d ["output"; "generatedText"; "text"; "result"] with
          | Some t => t
          | None =>
              match results_text d with
              | Some t => t
              | None => VStr (json_dumps data)
              end
          end
      end
  | _ => VStr (json_dumps data)
  end.

(** Both [except] clauses print the error and return [None]. *)
Definition generate_response (c : clients) (prompt model_id : string)
    (temperature top_p : value) (max_tokens : Z) : io value :=
  let payload := build_payload prompt model_id temperature top_p max_tokens in
  do data <- invoke_model c model_id (json_dumps payload);
  ret match data with
      | Ok data => extract_text data
      | Raise (ClientError _) => VNone
      | Raise _ => VNone
      end.

(** ** valid_prompt *)

Definition system_message : string :=
  "Classify the user request into one category: A,B,C,D,E. "
  ++ "Respond with a single line like: 'Category E'".

(** [raw.upper()]: a method of [str] only. *)
Definition str_upper (raw : value) : result string :=
  match raw with
  | VStr s => Ok (upper s)
  | _ => Raise (no_attribute raw "upper")
  end.

Definition verdict (category raw : value) : value :=
  VDict [("category", category); ("raw", raw)].

(** Lines 171-175: the loop over the letters and the return after it. *)
Fixpoint scan_letters (raw : value) (letters : list string) : result value :=
  match letters with
  | [] => Ok (verdict VNone raw)
  | ch :: letters' =>
      let* up := str_upper raw in
      if str_contains ch up then Ok (verdict (VStr ch) raw) else scan_letters raw letters'
  end.

(** Lines 168-178: from the text the adapter returned to the verdict. *)
Definition classify (resp_text : value) : value :=
  let raw := if truthy resp_text then resp_text else VStr "" in
  match scan_letters raw ["A"; "B"; "C"; "D"; "E"] with
  | Ok v => v
  | Raise e => verdict VNone (VStr (exn_str e))
  end.

Definition float_0_0 : value := VFloat {| float_repr := "0.0"; float_is_zero := true |}.
Definition float_1_0 : value := VFloat {| float_repr := "1.0"; float_is_zero := false |}.

Definition valid_prompt (c : clients) (prompt model_id : string) : io value :=
  let full_prompt := system_message ++ newline ++ newline ++ prompt in
  do resp_text <- generate_response c full_prompt model_id float_0_0 float_1_0 8;
  ret (classify resp_text).

End bedrock_utils.

(* ===================================================================== *)
(** * app.py: one chat turn *)
(* ===================================================================== *)

Module app.
Import Py bedrock_utils.
Local Open Scope py_scope.
#[local] Set Warnings "-abstract-large-number".

Definition truncated : string := newline ++ "...[truncated]".

(** The loop over a [content] list (lines 52-55): the text of the first
    element that is a dict with a string under [text]. *)
Fixpoint first_item_text (content : list value) : option string :=
  match content with
  | [] => None
  | item :: content' =>
      match item with
      | VDict i =>
          match lookup i "text" with
          | Some (VStr s) => Some s
          | _ => first_item_text content'
          end
      | _ => first_item_text content'
      end
  end.

(** Lines 41-60: [text_piece] after the probes ([None] is Python's [None]). *)
Definition probe_text (result : value) : option string :=
  match result with
  | VDict d =>
      match lookup d "text" with
      | Some (VStr s) => Some s
      | _ =>
          match lookup d "content" with
          | Some content =>
              match content with
              | VDict c =>
                  match lookup c "text" with
                  | Some (VStr s) => Some s
                  | _ => None
                  end
              | VList l => first_item_text l
              | _ => None
              end
          | None =>
              match lookup d "chunks" with
              | Some (VStr s) => Some s
              | _ =>
                  match lookup d "preview" with
                  | Some (VStr s) => Some s
                  | _ => None
                  end
              end
          end
      end
  | _ => None
  end.

(** Lines 62-66: the last resort. [json.dumps] does not raise on a [value],
    so the [except] branch ([str(result)]) is never taken. *)
Definition resolve_text (result : value) : string :=
  match probe_text result with
  | Some s => if is_empty s then json_dumps result else s
  | None => json_dumps result
  end.

(** [if len(s) > limit: s = s[:limit] + "\n...[truncated]"]. *)
Definition cap (limit : nat) (s : string) : string :=
  if (limit <? String.length s)%nat then take limit s ++ truncated else s.

(** Lines 39-71: the loop that fills [context_pieces]. *)
Definition context_pieces (kb_results : list value) : list string :=
  fold_left
    (fun pieces result =>
       let text_piece := resolve_text result in
       if negb (is_empty text_piece) then (pieces ++ [cap 5000 text_piece])%list else pieces)
    kb_results [].

(** Lines 73-75. *)
Definition assemble (kb_results : list value) : string :=
  cap 15000 (String.concat newline (context_pieces kb_results)).

Definition rejection : string := "I'm unable to answer this, please try again".

(** Lines 34-81: the value of [response] at the end of the turn. The model
    and sampling settings come from the sidebar. *)
Definition chat_turn (c : clients) (prompt model_id kb_id : string) (temperature top_p : value) : io value :=
  do valid <- valid_prompt c prompt model_id;
  if truthy valid then
    do kb_results <- query_knowledge_base c prompt kb_id 3;
    let context := assemble kb_results in
    let full_prompt :=
      "Context: " ++ context ++ newline ++ newline ++ "User: " ++ prompt ++ newline ++ newline in
    generate_response c full_prompt model_id temperature top_p 512
  else
    ret (VStr rejection).

End app.

(* ===================================================================== *)
(** * Properties of the context assembler *)
(* ===================================================================== *)

Module app_properties.
Import Py bedrock_utils app.
#[local] Set Warnings "-abstract-large-number".

(** [suffix] ends [s]. *)
Definition ends_with (suffix s : string) : Prop := exists front, s = front ++ suffix.

Definition nonempty (s : string) : bool := negb (is_empty s).

(** ** Lengths of appended and sliced text *)

Lemma length_append (s t : string) :
  String.length (s ++ t) = String.length s + String.length t.
Proof.
  induction s as [| c s IH]; simpl; [reflexivity | now rewrite IH].
Qed.

Lemma length_take (n : nat) (s : string) :
  String.length (take n s) = Nat.min n (String.length s).
Proof.
  unfold take. revert s.
  induction n as [| n IH]; intros [| c s]; simpl; try reflexivity.
  now rewrite IH.
Qed.

Lemma is_empty_length (s : string) : is_empty s = true <-> String.length s = 0.
Proof.
  destruct s; simpl; split; intro H; try reflexivity; discriminate H.
Qed.

Lemma truncated_length : String.length truncated = 15.
Proof. reflexivity. Qed.

(** ** The cap *)

Lemma cap_over (limit : nat) (s : string) :
  limit < String.length s -> cap limit s = take limit s ++ truncated.
Proof.
  intro H. unfold cap. apply Nat.ltb_lt in H. now rewrite H.
Qed.

Lemma cap_within (limit : nat) (s : string) :
  String.length s <= limit -> cap limit s = s.
Proof.
  intro H. unfold cap. apply Nat.ltb_ge in H. now rewrite H.
Qed.

Lemma cap_length (limit : nat) (s : string) :
  String.length (cap limit s) <= limit + String.length truncated.
Proof.
  destruct (Nat.lt_ge_cases limit (String.length s)) as [H | H].
  - rewrite (cap_over _ _ H), length_append, length_take. lia.
  - rewrite (cap_within _ _ H). lia.
Qed.

(** A capped text is the text itself, or a slice of it ending in the marker. *)
Lemma cap_cases (limit : nat) (s : string) :
  (String.length s <= limit /\ cap limit s = s)
  \/ (limit < String.length s /\ cap limit s = take limit s ++ truncated).
Proof.
  destruct (Nat.lt_ge_cases limit (String.length s)) as [H | H].
  - right. split; [exact H | now apply cap_over].
  - left. split; [exact H | now apply cap_within].
Qed.

(** ** The loop as a filter *)

Lemma context_pieces_from (kb_results : list value) (pieces : list string) :
  fold_left
    (fun pieces result =>
       let text_piece := resolve_text result in
       if negb (is_empty text_piece) then (pieces ++ [cap 5000 text_piece])%list else pieces)
    kb_results pieces
  = (pieces ++ map (cap 5000) (filter nonempty (map resolve_text kb_results)))%list.
Proof.
  revert pieces.
  induction kb_results as [| result rest IH]; intro pieces; simpl.
  - now rewrite app_nil_r.
  - rewrite IH. unfold nonempty at 2.
    destruct (negb (is_empty (resolve_text result))); simpl.
    + now rewrite <- app_assoc.
    + reflexivity.
Qed.

Lemma context_pieces_filter (kb_results : list value) :
  context_pieces kb_results
  = map (cap 5000) (filter nonempty (map resolve_text kb_results)).
Proof.
  unfold context_pieces. now rewrite context_pieces_from.
Qed.

(** [json.dumps] of a dict opens a brace, so it is never empty; hence neither
    is the resolved text of a passage that is a dict. *)
Lemma resolve_text_dict_nonempty (d : list (string * value)) :
  nonempty (resolve_text (VDict d)) = true.
Proof.
  unfold nonempty, resolve_text.
  destruct (probe_text (VDict d)) as [s |].
  - destruct (is_empty s) eqn:E; [reflexivity | now rewrite E].
  - reflexivity.
Qed.

(** C4: whatever the passages, the assembled context is at most 15,000
    characters plus the marker long. Truncation is never silent, at either
    cap: when the joined text exceeds 15,000 characters the context is its
    first 15,000 characters followed by the marker (and it is the joined text
    itself otherwise); and the pieces match the non-empty resolved texts one
    by one, a text of at most 5,000 characters being its own piece and a
    longer one giving its first 5,000 characters followed by the marker. *)
Theorem assemble_bounded (kb_results : list value) :
  String.length (assemble kb_results) <= 15000 + String.length truncated
  /\ (let joined := String.concat newline (context_pieces kb_results) in
      (15000 < String.length joined ->
       assemble kb_results = take 15000 joined ++ truncated
       /\ ends_with truncated (assemble kb_results))
      /\ (String.length joined <= 15000 -> assemble kb_results = joined))
  /\ Forall2 (fun text piece =>
                (String.length text <= 5000 /\ piece = text)
                \/ (5000 < String.length text
                    /\ piece = take 5000 text ++ truncated
                    /\ ends_with truncated piece))
             (filter nonempty (map resolve_text kb_results))
             (context_pieces kb_results)
  /\ Forall (fun piece => String.length piece <= 5000 + String.length truncated)
            (context_pieces kb_results).
Proof.
  split; [apply cap_length |].
  split; [| split].
  - intro joined. split.
    + intro H. unfold assemble. fold joined.
      rewrite (cap_over _ _ H). split; [reflexivity |].
      now exists (take 15000 joined).
    + intro H. unfold assemble. fold joined. now apply cap_within.
  - rewrite context_pieces_filter.
    induction (filter nonempty (map resolve_text kb_results)) as [| t texts IH];
      cbn [map]; constructor; [| exact IH].
    destruct (cap_cases 5000 t) as [[Hle Heq] | [Hlt Heq]]; rewrite Heq.
    + left. now split.
    + right. repeat split; [exact Hlt |]. now exists (take 5000 t).
  - rewrite context_pieces_filter. apply Forall_forall.
    intros piece Hin. apply in_map_iff in Hin as (t & <- & _).
    apply cap_length.
Qed.

(** A passage of 6,000 letters is cut to its first 5,000 and the marker. *)
Example long_piece_is_marked :
  context_pieces [VDict [("text", VStr (string_of_list_ascii (repeat "b"%char 6000)))]]
  = [string_of_list_ascii (repeat "b"%char 5000) ++ truncated].
Proof. vm_compute. reflexivity. Qed.

(** C7: a single passage whose resolved text has exactly 5,001 characters
    gives a context made of the first 5,000 of them followed by the marker. *)
Theorem single_passage_5001 (result : value) :
  String.length (resolve_text result) = 5001 ->
  assemble [result] = take 5000 (resolve_text result) ++ truncated
  /\ String.length (take 5000 (resolve_text result)) = 5000.
Proof.
  intro Hlen.
  assert (Htake : String.length (take 5000 (resolve_text result)) = 5000)
    by (rewrite length_take, Hlen; reflexivity).
  split; [| exact Htake].
  unfold assemble. rewrite context_pieces_filter. simpl map.
  assert (Hne : nonempty (resolve_text result) = true).
  { unfold nonempty. destruct (is_empty (resolve_text result)) eqn:E; [| reflexivity].
    apply is_empty_length in E. rewrite E in Hlen. discriminate Hlen. }
  cbn [filter]. rewrite Hne. cbn [map String.concat].
  rewrite (cap_over 5000) by (rewrite Hlen; apply Nat.lt_succ_diag_r).
  apply cap_within.
  rewrite length_append, Htake, truncated_length.
  apply Nat.leb_le. vm_compute. reflexivity.
Qed.

(** A passage in the normalised form, with a text of 5,001 letters. *)
Definition long_passage : value :=
  passage VNone (VStr (string_of_list_ascii (repeat "a"%char 5001))) (VDict []) VNone.

Lemma single_passage_5001_witness :
  assemble [long_passage] = take 5000 (resolve_text long_passage) ++ truncated
  /\ String.length (take 5000 (resolve_text long_passage)) = 5000.
Proof.
  apply (single_passage_5001 long_passage). vm_compute. reflexivity.
Defined.

(** ** What a passage contributes *)

Definition is_record (v : value) : Prop := exists d, v = VDict d.

(** The field holds no string (it is absent or holds something else). *)
Definition not_str (field : option value) : Prop := forall s, field <> Some (VStr s).

(** The probed text when it is not empty, the serialisation of the whole
    passage when it is. *)
Definition text_or_serialised (s : string) (result : value) : string :=
  if is_empty s then json_dumps result else s.

Lemma resolve_text_probed (result : value) (s : string) :
  probe_text result = Some s -> resolve_text result = text_or_serialised s result.
Proof. unfold resolve_text, text_or_serialised. now intros ->. Qed.

Lemma probe_text_without_text (d : list (string * value)) :
  not_str (lookup d "text") ->
  probe_text (VDict d)
  = match lookup d "content" with
    | Some content =>
        match content with
        | VDict c => match lookup c "text" with Some (VStr s) => Some s | _ => None end
        | VList l => first_item_text l
        | _ => None
        end
    | None =>
        match lookup d "chunks" with
        | Some (VStr s) => Some s
        | _ => match lookup d "preview" with Some (VStr s) => Some s | _ => None end
        end
    end.
Proof.
  intro H. cbn [probe_text].
  destruct (lookup d "text") as [[| | | | s | |] |]; try reflexivity.
  now elim (H s).
Qed.

(** The empty string as text: the passage the normaliser returns for an
    item without any text field. *)
Definition empty_text_passage : value := passage VNone (VStr "") (VDict []) VNone.

(** The probed text of such a passage is the empty string, and yet the
    passage is not left out: its serialisation is the piece. *)
Lemma empty_text_passage_is_not_omitted :
  probe_text empty_text_passage = Some ""
  /\ context_pieces [empty_text_passage] = [json_dumps empty_text_passage]
  /\ context_pieces [empty_text_passage] <> []
  /\ assemble [empty_text_passage] <> "".
Proof.
  split; [reflexivity |]. split; [reflexivity |]. split; vm_compute; discriminate.
Qed.

(** C8, as the code has it: no passage that is a record is left out. The
    pieces are, in the order of the passages, their capped resolved texts,
    none of them empty. The resolved text is the string found by the first
    applicable probe (the text field; else, for a passage with a content
    key, the text of a content record or of the first element of a content
    list that is a record with a string text; else chunks; else preview) when
    that string is not empty, and the serialisation of the whole passage when
    the probe finds nothing or finds the empty string. *)
Theorem empty_text_is_serialised (kb_results : list value) :
  Forall is_record kb_results ->
  context_pieces kb_results = map (fun r => cap 5000 (resolve_text r)) kb_results
  /\ assemble kb_results
     = cap 15000 (String.concat newline (map (fun r => cap 5000 (resolve_text r)) kb_results))
  /\ Forall (fun r => resolve_text r <> "") kb_results
  /\ (forall d,
        (forall s, lookup d "text" = Some (VStr s) ->
           resolve_text (VDict d) = text_or_serialised s (VDict d))
        /\ (forall c s,
              not_str (lookup d "text") ->
              lookup d "content" = Some (VDict c) -> lookup c "text" = Some (VStr s) ->
              resolve_text (VDict d) = text_or_serialised s (VDict d))
        /\ (forall l s,
              not_str (lookup d "text") ->
              lookup d "content" = Some (VList l) -> first_item_text l = Some s ->
              resolve_text (VDict d) = text_or_serialised s (VDict d))
        /\ (forall s,
              not_str (lookup d "text") -> lookup d "content" = None ->
              lookup d "chunks" = Some (VStr s) ->
              resolve_text (VDict d) = text_or_serialised s (VDict d))
        /\ (forall s,
              not_str (lookup d "text") -> lookup d "content" = None ->
              not_str (lookup d "chunks") -> lookup d "preview" = Some (VStr s) ->
              resolve_text (VDict d) = text_or_serialised s (VDict d))
        /\ (not_str (lookup d "text") -> lookup d "content" = None ->
            not_str (lookup d "chunks") -> not_str (lookup d "preview") ->
            resolve_text (VDict d) = json_dumps (VDict d))
        /\ (forall content,
              not_str (lookup d "text") -> lookup d "content" = Some content ->
              match content with
              | VDict c => not_str (lookup c "text")
              | VList l => first_item_text l = None
              | _ => True
              end ->
              resolve_text (VDict d) = json_dumps (VDict d))).
Proof.
  intro Hrec.
  assert (Hpieces : context_pieces kb_results
                    = map (fun r => cap 5000 (resolve_text r)) kb_results).
  { rewrite context_pieces_filter.
    induction Hrec as [| r rs [d ->] _ IH]; [reflexivity |].
    cbn [map filter]. rewrite resolve_text_dict_nonempty. cbn [map]. now rewrite IH. }
  split; [exact Hpieces |].
  split; [unfold assemble; now rewrite Hpieces |].
  split.
  { eapply Forall_impl; [| exact Hrec]. intros r [d ->] Heq.
    pose proof (resolve_text_dict_nonempty d) as Hne.
    rewrite Heq in Hne. discriminate Hne. }
  intro d.
  assert (Hnone : probe_text (VDict d) = None -> resolve_text (VDict d) = json_dumps (VDict d))
    by (unfold resolve_text; now intros ->).
  repeat split.
  - intros s Ht. apply resolve_text_probed. cbn [probe_text]. now rewrite Ht.
  - intros c s Ht Hc Hs. apply resolve_text_probed.
    rewrite (probe_text_without_text d Ht), Hc, Hs. reflexivity.
  - intros l s Ht Hc Hs. apply resolve_text_probed.
    rewrite (probe_text_without_text d Ht), Hc. exact Hs.
  - intros s Ht Hc Hs. apply resolve_text_probed.
    rewrite (probe_text_without_text d Ht), Hc, Hs. reflexivity.
  - intros s Ht Hc Hch Hs. apply resolve_text_probed.
    rewrite (probe_text_without_text d Ht), Hc, Hs.
    destruct (lookup d "chunks") as [[| | | | s' | |] |]; try reflexivity.
    now elim (Hch s').
  - intros Ht Hc Hch Hp. apply Hnone.
    rewrite (probe_text_without_text d Ht), Hc.
    destruct (lookup d "chunks") as [[| | | | s' | |] |];
      try (now elim (Hch s'));
      destruct (lookup d "preview") as [[| | | | s'' | |] |];
      try reflexivity; now elim (Hp s'').
  - intros content Ht Hc Hcontent. apply Hnone.
    rewrite (probe_text_without_text d Ht), Hc.
    destruct content as [| b | z | f | s | l | c]; try reflexivity.
    + exact Hcontent.
    + destruct (lookup c "text") as [[| | | | s' | |] |]; try reflexivity.
      now elim (Hcontent s').
Qed.

(** Four passages: an empty text, a text, a content list, a preview. *)
Definition mixed_passages : list value :=
  [empty_text_passage;
   VDict [("text", VStr "blade")];
   VDict [("content", VList [VInt 1; VDict [("text", VStr "bucket")]])];
   VDict [("preview", VStr "boom")]].

Lemma empty_text_is_serialised_witness :
  context_pieces mixed_passages
  = [json_dumps empty_text_passage; "blade"; "bucket"; "boom"]
  /\ Forall (fun r => resolve_text r <> "") mixed_passages.
Proof.
  assert (Hrec : Forall is_record mixed_passages)
    by (repeat constructor; eexists; reflexivity).
  destruct (empty_text_is_serialised mixed_passages Hrec) as (Hpieces & _ & Hne & _).
  split; [| exact Hne].
  rewrite Hpieces. vm_compute. reflexivity.
Defined.

End app_properties.

(* ===================================================================== *)
(** * Properties of the model payload adapter *)
(* ===================================================================== *)

Module adapter_properties.
Import Py bedrock_utils.

(** The Claude-family request: a version tag and one user message holding
    the prompt as a text block; no [input] field. *)
Definition messages_shape (prompt : string) (payload : value) : Prop :=
  exists d,
    payload = VDict d
    /\ lookup d "anthropic_version" = Some (VStr "bedrock-2023-05-31")
    /\ lookup d "messages"
       = Some (VList [VDict [("role", VStr "user");
                             ("content", VList [VDict [("type", VStr "text");
                                                       ("text", VStr prompt)]])]])
    /\ lookup d "input" = None.

(** The generic request: the prompt under [input]; no [messages]. *)
Definition flat_shape (prompt : string) (payload : value) : Prop :=
  exists d,
    payload = VDict d
    /\ lookup d "input" = Some (VStr prompt)
    /\ lookup d "messages" = None
    /\ lookup d "anthropic_version" = None.

(** Both shapes carry the three sampling settings as they were passed. *)
Definition carries_settings (temperature top_p : value) (max_tokens : Z) (payload : value) : Prop :=
  exists d,
    payload = VDict d
    /\ lookup d "max_tokens" = Some (VInt max_tokens)
    /\ lookup d "temperature" = Some temperature
    /\ lookup d "top_p" = Some top_p.

Lemma shapes_exclusive (prompt : string) (payload : value) :
  messages_shape prompt payload -> ~ flat_shape prompt payload.
Proof.
  intros (d & -> & _ & _ & Hin) (d' & [= <-] & Hin' & _). congruence.
Qed.

(** C5, as the code has it: the payload has the messages shape exactly when
    the lower-cased identifier contains [anthropic.] (the provider prefix,
    with its dot) or [claude], and the flat shape with an [input] field for
    every other identifier. *)
Theorem payload_shape_by_marker (prompt model_id : string) (temperature top_p : value)
    (max_tokens : Z) :
  let payload := build_payload prompt model_id temperature top_p max_tokens in
  let lower_id := lower model_id in
  carries_settings temperature top_p max_tokens payload
  /\ (str_contains "anthropic." lower_id = true \/ str_contains "claude" lower_id = true ->
      messages_shape prompt payload)
  /\ (str_contains "anthropic." lower_id = false /\ str_contains "claude" lower_id = false ->
      flat_shape prompt payload).
Proof.
  intros payload lower_id. subst payload. unfold build_payload. fold lower_id.
  destruct (str_contains "anthropic." lower_id || str_contains "claude" lower_id) eqn:Hm.
  - split; [eexists; split; [reflexivity | repeat split] |].
    split.
    + intros _. eexists. split; [reflexivity | repeat split].
    + intros [Ha Hc]. rewrite Ha, Hc in Hm. discriminate Hm.
  - apply orb_false_elim in Hm as [Ha Hc].
    split; [eexists; split; [reflexivity | repeat split] |].
    split.
    + intros [H | H]; congruence.
    + intros _. eexists. split; [reflexivity | repeat split].
Qed.

(** An identifier with the word [anthropic] but neither the dotted prefix
    nor [claude] gets the flat shape. *)
Lemma anthropic_without_dot_is_flat :
  str_contains "anthropic" (lower "My-Anthropic-Model") = true
  /\ flat_shape "hi" (build_payload "hi" "My-Anthropic-Model" float_0_0 float_1_0 512)
  /\ ~ messages_shape "hi" (build_payload "hi" "My-Anthropic-Model" float_0_0 float_1_0 512).
Proof.
  assert (H : flat_shape "hi" (build_payload "hi" "My-Anthropic-Model" float_0_0 float_1_0 512)).
  { eexists. split; [reflexivity | repeat split]. }
  split; [reflexivity |]. split; [exact H |].
  intro Hm. exact (shapes_exclusive _ _ Hm H).
Qed.

(** The usual identifiers take the messages branch, in any letter case. *)
Example claude_identifier_messages :
  messages_shape "hi"
    (build_payload "hi" "anthropic.claude-3-haiku-20240307-v1:0" float_0_0 float_1_0 512)
  /\ messages_shape "hi" (build_payload "hi" "us.CLAUDE-next" float_0_0 float_1_0 512).
Proof.
  split; eexists; (split; [reflexivity | repeat split]).
Qed.

(** ** Response extraction *)

Lemma content_text_absent (d : list (string * value)) :
  (forall l, lookup d "content" <> Some (VList l)) -> content_text d = None.
Proof.
  intro H. unfold content_text.
  destruct (lookup d "content") as [[| | | | | l |] |]; try reflexivity.
  now elim (H l).
Qed.

Lemma extract_text_output (d : list (string * value)) (s : string) :
  lookup d "output" = Some (VStr s) ->
  (forall l, lookup d "content" <> Some (VList l)) ->
  extract_text (VDict d) = VStr s.
Proof.
  intros Hout Hcontent. unfold extract_text.
  rewrite (content_text_absent d Hcontent).
  cbn [first_str]. now rewrite Hout.
Qed.

(** C10: a parsed response that is a record with the string [hello] under
    [output], and no [content] sequence, comes back as exactly [hello]. *)
Theorem generic_output_returned (c : clients) (prompt model_id : string)
    (temperature top_p : value) (max_tokens : Z) (log : list call)
    (d : list (string * value)) :
  bedrock_invoke_model c log model_id
    (json_dumps (build_payload prompt model_id temperature top_p max_tokens)) = Ok (VDict d) ->
  lookup d "output" = Some (VStr "hello") ->
  (forall l, lookup d "content" <> Some (VList l)) ->
  fst (generate_response c prompt model_id temperature top_p max_tokens log) = VStr "hello".
Proof.
  intros Hcall Hout Hcontent.
  unfold generate_response, io_bind, invoke_model, ret.
  rewrite Hcall. cbn [fst].
  now apply extract_text_output.
Qed.

(** A model runtime that answers every request with [{"output": "hello"}]. *)
Definition says_hello : clients := {|
  bedrock_kb_retrieve := fun _ _ _ _ => Ok (VDict []);
  bedrock_invoke_model := fun _ _ _ => Ok (VDict [("output", VStr "hello")])
|}.

Lemma generic_output_returned_witness :
  fst (generate_response says_hello "hi" "meta.llama3" float_0_0 float_1_0 512 []) = VStr "hello".
Proof.
  apply (generic_output_returned says_hello "hi" "meta.llama3" float_0_0 float_1_0 512 []
           [("output", VStr "hello")]).
  - reflexivity.
  - reflexivity.
  - intros l H. discriminate H.
Defined.

(** X1: any exception of the call or of the parsing gives [None], and the
    call is logged once. *)
Lemma generate_response_absorbs (c : clients) (prompt model_id : string)
    (temperature top_p : value) (max_tokens : Z) (log : list call) (e : exn) :
  let body := json_dumps (build_payload prompt model_id temperature top_p max_tokens) in
  bedrock_invoke_model c log model_id body = Raise e ->
  generate_response c prompt model_id temperature top_p max_tokens log
  = (VNone, (log ++ [InvokeModel model_id body])%list).
Proof.
  intros body H.
  unfold generate_response, io_bind, invoke_model, ret. fold body.
  rewrite H. now destruct e.
Qed.

End adapter_properties.

(* ===================================================================== *)
(** * Properties of the retrieval result normaliser *)
(* ===================================================================== *)

Module normalizer_properties.
Import Py bedrock_utils.
Local Open Scope py_scope.

(** ** Chains of [or] without exceptions *)

Definition pick (a b : value) : value := if truthy a then a else b.

Lemma py_or_Ok (a : value) (y : result value) :
  (Ok a or y) = if truthy a then Ok a else y.
Proof. reflexivity. Qed.

Lemma py_or_Ok_Ok (a b : value) : (Ok a or Ok b) = Ok (pick a b).
Proof. unfold py_or, pick. now destruct (truthy a). Qed.

Definition str_or_falsy (v : value) : bool := negb (truthy v) || is_str v.

Lemma pick_str (a b : value) :
  str_or_falsy a = true -> is_str b = true -> is_str (pick a b) = true.
Proof.
  unfold str_or_falsy, pick. intros Ha Hb.
  destruct (truthy a); [exact Ha | exact Hb].
Qed.

Lemma pick_falsy (a b : value) : truthy a = false -> pick a b = b.
Proof. unfold pick. now intros ->. Qed.

Lemma is_str_inv (v : value) : is_str v = true -> exists s, v = VStr s.
Proof. destruct v; try discriminate. intros _. now eexists. Qed.

(** ** What the text probes look at *)

(** The [document] field is missing, falsy or a record: the cases in which
    [doc.get] has a receiver that is a dict. *)
Definition document_is_record_or_absent (d : list (string * value)) : bool :=
  let doc := dict_get d "document" in
  negb (truthy doc) || is_dict doc.

(** The values under the probed text fields, in the order the probes try
    them ([None] where a field is absent). *)
Definition text_fields (d : list (string * value)) : list value :=
  (match pick (dict_get d "content") (dict_get d "contents") with
   | VDict c => [dict_get c "text"; dict_get c "documentText"]
   | VList (VDict f :: _) => [dict_get f "text"; dict_get f "documentText"]
   | _ => []
   end
   ++ [dict_get d "text"; dict_get d "documentText";
       match dict_get d "document" with
       | VDict doc => dict_get doc "text"
       | _ => VNone
       end])%list.

(** An item of the shapes the service documents: not a record at all, or a
    record whose [document] is a record when present and whose text fields
    hold strings when they hold anything truthy. *)
Definition text_fields_are_strings (item : value) : bool :=
  match item with
  | VDict d => document_is_record_or_absent d && forallb str_or_falsy (text_fields d)
  | _ => true
  end.

(** The claim as it was written, for one item: a passage comes back and its
    text is a string. *)
Definition returns_string_text (item : value) : Prop :=
  exists doc_id s metadata score,
    _normalize_retrieval_item item = Ok (passage doc_id (VStr s) metadata score).

Lemma document_receiver (d : list (string * value)) :
  document_is_record_or_absent d = true ->
  exists doc,
    (Ok (dict_get d "document") or Ok (VDict [])) = Ok (VDict doc)
    /\ dict_get doc "text"
       = match dict_get d "document" with
         | VDict doc0 => dict_get doc0 "text"
         | _ => VNone
         end.
Proof.
  unfold document_is_record_or_absent. intro H. rewrite py_or_Ok_Ok. unfold pick.
  destruct (dict_get d "document") as [| b | z | f | s | l | doc0] eqn:E;
    cbn [truthy is_dict negb orb] in *;
    try (exists []; split; [reflexivity | reflexivity]).
  - destruct b; [discriminate H | now exists []].
  - destruct (negb (z =? 0)%Z); [discriminate H | now exists []].
  - destruct (negb (float_is_zero f)); [discriminate H | now exists []].
  - destruct (negb (s =? "")); [discriminate H | now exists []].
  - destruct l; [now exists [] | discriminate H].
  - destruct doc0; [now exists [] | now eexists].
Qed.

(** The first truthy value of a list, or the empty string: what a chain
    [v1 or v2 or ... or ''] evaluates to. *)
Definition first_truthy (vs : list value) : value := fold_right pick (VStr "") vs.

Lemma first_truthy_str (vs : list value) :
  forallb str_or_falsy vs = true -> is_str (first_truthy vs) = true.
Proof.
  induction vs as [| v vs IH]; cbn [forallb first_truthy fold_right]; [reflexivity |].
  intro H. apply andb_prop in H as [Hv Hvs].
  apply pick_str; [exact Hv | now apply IH].
Qed.

Lemma first_truthy_all_falsy (vs : list value) :
  forallb (fun v => negb (truthy v)) vs = true -> first_truthy vs = VStr "".
Proof.
  induction vs as [| v vs IH]; cbn [forallb first_truthy fold_right]; [reflexivity |].
  intro H. apply andb_prop in H as [Hv Hvs].
  rewrite pick_falsy by (now destruct (truthy v)). now apply IH.
Qed.

Lemma nested_text_pick (c : list (string * value)) :
  nested_text c = Ok (pick (dict_get c "text") (pick (dict_get c "documentText") (VStr ""))).
Proof. unfold nested_text. now rewrite !py_or_Ok_Ok. Qed.

(** The two stages of the text probe make one chain: the second stage is
    entered exactly when the first found nothing truthy. *)
Lemma two_stage_pick (a b rest : value) :
  (if negb (truthy (pick a (pick b (VStr "")))) then Ok rest
   else Ok (pick a (pick b (VStr ""))))
  = Ok (pick a (pick b rest)).
Proof.
  unfold pick. destruct (truthy a) eqn:Ea; [now rewrite Ea |].
  destruct (truthy b) eqn:Eb; [now rewrite Eb | reflexivity].
Qed.

(** The rest of the function cannot raise once [doc] is a record. *)
Lemma normalize_tail (d doc : list (string * value)) (text : value) :
  exists doc_id metadata score,
    (let* doc_id := Ok (dict_get d "documentId") or Ok (dict_get d "id") or get (VDict doc) "id" in
     let* metadata := Ok (dict_get d "metadata") or get (VDict doc) "metadata" or Ok (VDict []) in
     let* score := Ok (dict_get d "score") or Ok (dict_get d "similarity")
                     or Ok (dict_get d "relevanceScore") in
     Ok (passage doc_id text metadata score))
    = Ok (passage doc_id text metadata score).
Proof.
  cbn [get]. rewrite !py_or_Ok_Ok. cbn [bind]. now do 3 eexists.
Qed.

(** A record whose [document] has a usable receiver is normalised without
    an exception, and its text is the first truthy value among the probed
    text fields, or the empty string. *)
Lemma normalize_record (d : list (string * value)) :
  document_is_record_or_absent d = true ->
  exists doc_id metadata score,
    _normalize_retrieval_item (VDict d)
    = Ok (passage doc_id (first_truthy (text_fields d)) metadata score).
Proof.
  intro Hdoc.
  destruct (document_receiver d Hdoc) as (doc & Hor & Hdoctext).
  cbn [_normalize_retrieval_item]. rewrite Hor. cbn [bind].
  rewrite py_or_Ok_Ok. cbn [bind]. cbn [get]. rewrite Hdoctext.
  set (rest := pick (dict_get d "text") (pick (dict_get d "documentText")
                 (pick match dict_get d "document" with
                       | VDict doc0 => dict_get doc0 "text"
                       | _ => VNone
                       end (VStr "")))).
  assert (Hchain :
    (Ok (dict_get d "text") or Ok (dict_get d "documentText")
       or Ok match dict_get d "document" with
             | VDict doc0 => dict_get doc0 "text"
             | _ => VNone
             end or Ok (VStr "")) = Ok rest)
    by (now rewrite !py_or_Ok_Ok).
  rewrite Hchain. unfold text_fields.
  assert (Hempty : (if negb (truthy (VStr "")) then Ok rest else Ok (VStr "")) = Ok rest)
    by reflexivity.
  destruct (pick (dict_get d "content") (dict_get d "contents"))
    as [| b | z | f | s | l | c].
  1-5: cbn [bind]; rewrite Hempty; cbn [bind]; apply normalize_tail.
  - destruct l as [| first l];
      [cbn [bind]; rewrite Hempty; cbn [bind]; apply normalize_tail |].
    destruct first as [| b | z | f | s | l' | f].
    1-6: cbn [bind]; rewrite Hempty; cbn [bind]; apply normalize_tail.
    rewrite nested_text_pick. cbn [bind]. rewrite two_stage_pick. cbn [bind].
    apply normalize_tail.
  - rewrite nested_text_pick. cbn [bind]. rewrite two_stage_pick. cbn [bind].
    apply normalize_tail.
Qed.

(** An item whose [document], if it has one, can be asked for its fields:
    not a record at all, or a record whose [document] is missing, falsy or a
    record. *)
Definition has_usable_document (item : value) : bool :=
  match item with
  | VDict d => document_is_record_or_absent d
  | _ => true
  end.

(** C3, as the code has it: an item that is not a record comes back with its
    string form as text; a record whose [document] is missing, falsy or a
    record comes back, without an exception, with the first truthy value of
    its probed text fields as text, whatever the type of that value, or with
    the empty string when none of them is truthy; so the text is a string
    whenever those fields hold strings where they hold anything truthy. *)
Theorem normalize_text_is_string (item : value) :
  has_usable_document item = true ->
  (is_dict item = false ->
   _normalize_retrieval_item item = Ok (passage VNone (VStr (str item)) (VDict []) VNone))
  /\ (forall d, item = VDict d ->
      exists doc_id metadata score,
        _normalize_retrieval_item item
        = Ok (passage doc_id (first_truthy (text_fields d)) metadata score)
        /\ (forallb (fun v => negb (truthy v)) (text_fields d) = true ->
            first_truthy (text_fields d) = VStr "")
        /\ (forallb str_or_falsy (text_fields d) = true ->
            exists s, first_truthy (text_fields d) = VStr s))
  /\ (text_fields_are_strings item = true -> returns_string_text item).
Proof.
  intro Hdoc. split; [| split].
  - now destruct item.
  - intros d ->. cbn [has_usable_document] in Hdoc.
    destruct (normalize_record d Hdoc) as (doc_id & metadata & score & Heq).
    exists doc_id, metadata, score. split; [exact Heq |]. split.
    + apply first_truthy_all_falsy.
    + intro Hfields. exact (is_str_inv _ (first_truthy_str _ Hfields)).
  - intro H. unfold returns_string_text.
    destruct item as [| b | z | f | s | l | d];
      try (cbn [_normalize_retrieval_item]; now do 4 eexists).
    cbn [text_fields_are_strings] in H. apply andb_prop in H as [_ Hfields].
    cbn [has_usable_document] in Hdoc.
    destruct (normalize_record d Hdoc) as (doc_id & metadata & score & ->).
    destruct (is_str_inv _ (first_truthy_str _ Hfields)) as (s & ->).
    now exists doc_id, s, metadata, score.
Qed.

(** A retrieval result of the service's documented shape. *)
Definition kb_item : value :=
  VDict [("content", VDict [("text", VStr "Bulldozer D11 has a blade capacity of 34 cubic metres")]);
         ("location", VDict [("type", VStr "S3")]);
         ("score", VInt 1)].

(** The theorem at a record whose text field holds a number, and at a
    record of the documented shape. *)
Lemma normalize_text_is_string_witness :
  (exists doc_id metadata score,
     _normalize_retrieval_item (VDict [("text", VInt 5)])
     = Ok (passage doc_id (VInt 5) metadata score))
  /\ returns_string_text kb_item.
Proof.
  split.
  - destruct (normalize_text_is_string (VDict [("text", VInt 5)]) eq_refl) as (_ & H & _).
    destruct (H [("text", VInt 5)] eq_refl) as (doc_id & metadata & score & Heq & _).
    exists doc_id, metadata, score. exact Heq.
  - destruct (normalize_text_is_string kb_item eq_refl) as (_ & _ & H).
    apply H. reflexivity.
Defined.

Example kb_item_normalized :
  _normalize_retrieval_item kb_item
  = Ok (passage VNone (VStr "Bulldozer D11 has a blade capacity of 34 cubic metres") (VDict [])
          (VInt 1)).
Proof. reflexivity. Qed.

(** A text field that holds a number is handed on as that number: the text
    of the passage is then no string. *)
Lemma numeric_text_is_kept :
  _normalize_retrieval_item (VDict [("text", VInt 5)])
  = Ok (passage VNone (VInt 5) (VDict []) VNone)
  /\ ~ returns_string_text (VDict [("text", VInt 5)]).
Proof.
  split; [reflexivity |].
  intros (doc_id & s & metadata & score & H). discriminate H.
Qed.

(** An item without any of the known text fields (and without a
    [document]) gets the empty string. *)
Lemma normalize_without_text_fields (d : list (string * value)) :
  lookup d "content" = None -> lookup d "contents" = None ->
  lookup d "text" = None -> lookup d "documentText" = None ->
  lookup d "document" = None ->
  exists doc_id metadata score,
    _normalize_retrieval_item (VDict d) = Ok (passage doc_id (VStr "") metadata score).
Proof.
  intros Hc Hcs Ht Hdt Hdoc.
  cbn [_normalize_retrieval_item].
  assert (Habs : forall k, lookup d k = None -> dict_get d k = VNone)
    by (intros k Hk; unfold dict_get; now rewrite Hk).
  rewrite (Habs _ Hc), (Habs _ Hcs), (Habs _ Ht), (Habs _ Hdt), (Habs _ Hdoc).
  rewrite !(py_or_Ok VNone). cbn [truthy bind negb String.eqb].
  change (Ok VNone or Ok VNone or get (VDict []) "text" or Ok (VStr ""))
    with (@Ok value (VStr "")).
  cbn [bind]. apply normalize_tail.
Qed.

(** A [document] that is a string has no [get]: the item raises. *)
Example document_string_raises :
  _normalize_retrieval_item (VDict [("document", VStr "s3://bucket/spec.pdf")])
  = Raise (AttributeError "'str' object has no attribute 'get'").
Proof. reflexivity. Qed.

End normalizer_properties.

(* ===================================================================== *)
(** * Properties of the knowledge-base query *)
(* ===================================================================== *)

Module retrieval_properties.
Import Py bedrock_utils.
Local Open Scope py_scope.

(** A knowledge base that answers every query with [response]. *)
Definition kb_answers (response : value) : clients := {|
  bedrock_kb_retrieve := fun _ _ _ _ => Ok response;
  bedrock_invoke_model := fun _ _ _ => Raise (OtherException "not called")
|}.

(** A knowledge base whose every call fails with [e]. *)
Definition kb_fails (e : exn) : clients := {|
  bedrock_kb_retrieve := fun _ _ _ _ => Raise e;
  bedrock_invoke_model := fun _ _ _ => Raise (OtherException "not called")
|}.

(** The passages returned when the batch is [batch]: an exception while
    normalising one element empties the whole answer. *)
Definition passages_of (batch : list value) : list value :=
  match map_result _normalize_retrieval_item batch with
  | Ok passages => passages
  | Raise _ => []
  end.

Lemma query_knowledge_base_run (c : clients) (query kb_id : string) (top_k : Z) (log : list call) :
  query_knowledge_base c query kb_id top_k log
  = (match bind (bedrock_kb_retrieve c log kb_id query top_k) normalize_response with
     | Ok normalized => normalized
     | Raise _ => []
     end,
     (log ++ [Retrieve kb_id query top_k])%list).
Proof.
  unfold query_knowledge_base, io_bind, retrieve, ret. f_equal.
  destruct (bind _ normalize_response) as [n | []]; reflexivity.
Qed.

(** C9: whatever exception the retrieval call raises, the function returns
    the empty list (after the one call it made); it has no other outcome
    than a list. *)
Theorem retrieval_errors_absorbed (c : clients) (query kb_id : string) (top_k : Z)
    (log : list call) (e : exn) :
  bedrock_kb_retrieve c log kb_id query top_k = Raise e ->
  query_knowledge_base c query kb_id top_k log = ([], (log ++ [Retrieve kb_id query top_k])%list).
Proof.
  intro H. rewrite query_knowledge_base_run, H. reflexivity.
Qed.

Lemma retrieval_errors_absorbed_witness :
  query_knowledge_base
    (kb_fails (ClientError "An error occurred (AccessDeniedException) when calling the Retrieve operation"))
    "blade capacity" "9HOYRJWGB7" 3 []
  = ([], [Retrieve "9HOYRJWGB7" "blade capacity" 3]).
Proof.
  apply (retrieval_errors_absorbed
           (kb_fails (ClientError "An error occurred (AccessDeniedException) when calling the Retrieve operation"))
           "blade capacity" "9HOYRJWGB7" 3 []
           (ClientError "An error occurred (AccessDeniedException) when calling the Retrieve operation")).
  reflexivity.
Defined.

(** An exception raised after the call, while the response is taken apart,
    is absorbed the same way. *)
Example malformed_response_absorbed :
  fst (query_knowledge_base (kb_answers (VDict [("results", VInt 7)])) "q" "kb" 3 []) = []
  /\ fst (query_knowledge_base
            (kb_answers (VDict [("results", VList [VDict [("document", VStr "x")]])])) "q" "kb" 3 [])
     = [].
Proof. split; reflexivity. Qed.

(** ** The nested batch *)

Definition holds_list (d : list (string * value)) (k : string) : bool :=
  match lookup d k with
  | Some (VList _) => true
  | _ => false
  end.

Lemma nested_results_first (d : list (string * value)) (before after : list string)
    (k : string) (l : list value) (results : value) :
  forallb (fun k' => negb (holds_list d k')) before = true ->
  lookup d k = Some (VList l) ->
  nested_results d (before ++ k :: after) results = VList l.
Proof.
  intros Hbefore Hk.
  induction before as [| k' before IH]; cbn [app nested_results].
  - now rewrite Hk.
  - cbn [forallb] in Hbefore. apply andb_prop in Hbefore as [Hk' Hbefore].
    unfold holds_list in Hk'.
    destruct (lookup d k') as [[| | | | | l' |] |];
      try discriminate Hk'; now apply IH.
Qed.

(** C6, as the code has it: when the extracted batch is a record, one more
    round looks at its keys items, results, hits, in that order, and takes
    the first that is present and holds a sequence; the passages are then the
    normalised elements of that sequence. *)
Theorem nested_batch_second_round (c : clients) (query kb_id : string) (top_k : Z)
    (log : list call) (response : value) (d : list (string * value))
    (before after : list string) (k : string) (l : list value) :
  bedrock_kb_retrieve c log kb_id query top_k = Ok response ->
  extract_results response = Ok (VDict d) ->
  ["items"; "results"; "hits"] = (before ++ k :: after)%list ->
  forallb (fun k' => negb (holds_list d k')) before = true ->
  lookup d k = Some (VList l) ->
  fst (query_knowledge_base c query kb_id top_k log) = passages_of l.
Proof.
  intros Hcall Hextract Hkeys Hbefore Hk.
  rewrite query_knowledge_base_run, Hcall. cbn [fst bind].
  unfold normalize_response. rewrite Hextract. cbn [bind].
  rewrite Hkeys, (nested_results_first d before after k l (VDict d) Hbefore Hk).
  unfold passages_of.
  destruct l as [| x l]; reflexivity.
Qed.

Definition hits_response : value :=
  VDict [("retrievalResults",
          VDict [("total", VInt 1);
                 ("hits", VList [VDict [("content", VDict [("text", VStr "D11 blade")])]])])].

Lemma nested_batch_second_round_witness :
  fst (query_knowledge_base (kb_answers hits_response) "blade" "kb" 3 [])
  = passages_of [VDict [("content", VDict [("text", VStr "D11 blade")])]].
Proof.
  apply (nested_batch_second_round (kb_answers hits_response) "blade" "kb" 3 [] hits_response
           [("total", VInt 1);
            ("hits", VList [VDict [("content", VDict [("text", VStr "D11 blade")])]])]
           ["items"; "results"] [] "hits"); reflexivity.
Defined.

(** The second round in the claim's words: the same probing as the first
    ([extract_results]), and an empty batch when it finds no sequence. *)
Definition same_probing_again (d : list (string * value)) : list value :=
  match extract_results (VDict d) with
  | Ok (VList l) => l
  | _ => []
  end.

Definition two_lists : list (string * value) :=
  [("results", VList [VStr "a"]); ("items", VList [VStr "b"])].

(** A nested record with lists under both [results] and [items]: the code
    takes [items], the first round's order would take [results]. *)
Lemma second_round_has_its_own_keys :
  fst (query_knowledge_base (kb_answers (VDict [("results", VDict two_lists)])) "q" "kb" 3 [])
  = [passage VNone (VStr "b") (VDict []) VNone]
  /\ passages_of (same_probing_again two_lists) = [passage VNone (VStr "a") (VDict []) VNone]
  /\ fst (query_knowledge_base (kb_answers (VDict [("results", VDict two_lists)])) "q" "kb" 3 [])
     <> passages_of (same_probing_again two_lists).
Proof.
  split; [reflexivity |]. split; [reflexivity |].
  vm_compute. discriminate.
Qed.

(** A nested record with no list under the three keys is left in place, and
    the comprehension then walks its keys. *)
Example unmatched_record_yields_its_keys :
  fst (query_knowledge_base
         (kb_answers (VDict [("results", VDict [("total", VInt 0); ("next", VNone)])]))
         "q" "kb" 3 [])
  = [passage VNone (VStr "total") (VDict []) VNone;
     passage VNone (VStr "next") (VDict []) VNone].
Proof. reflexivity. Qed.

End retrieval_properties.

(* ===================================================================== *)
(** * Properties of the prompt gate and of the chat turn *)
(* ===================================================================== *)

Module gate_properties.
Import Py bedrock_utils app.
Local Open Scope py_scope.

Definition letters : list string := ["A"; "B"; "C"; "D"; "E"].

(** The category of a verdict ([None] is Python's [None]). *)
Definition category (v : value) : value :=
  match v with
  | VDict d => dict_get d "category"
  | _ => VNone
  end.

(** A model runtime that answers the first request it gets with the text
    [first] and every later one with [later], both in the Claude response
    shape. *)
Definition model_says (first later : string) : clients := {|
  bedrock_kb_retrieve := fun _ _ _ _ => Ok (VDict [("retrievalResults", VList [])]);
  bedrock_invoke_model := fun log _ _ =>
    let text := match log with [] => first | _ :: _ => later end in
    Ok (VDict [("content", VList [VDict [("type", VStr "text"); ("text", VStr text)]])])
|}.

Definition haiku : string := "anthropic.claude-3-haiku-20240307-v1:0".

(** C2 at the text the prompt asks the model for: the upper-cased text
    CATEGORY E contains an A, which the loop meets first. *)
Theorem category_E_is_classified_A :
  fst (valid_prompt (model_says "Category E" "-") "How large is the blade?" haiku [])
  = verdict (VStr "A") (VStr "Category E")
  /\ classify (VStr "Category E") = verdict (VStr "A") (VStr "Category E").
Proof. split; reflexivity. Qed.

(** The other half of C2: a text whose upper-cased form has none of the
    five letters gets no category. *)
Lemma classify_without_letters (s : string) :
  (forall ch, In ch letters -> str_contains ch (upper s) = false) ->
  classify (VStr s) = verdict VNone (VStr s).
Proof.
  intro H. unfold classify.
  replace (if truthy (VStr s) then VStr s else VStr "") with (VStr s)
    by (destruct s; reflexivity).
  cbn [scan_letters str_upper bind].
  rewrite !H by (cbn; tauto).
  reflexivity.
Qed.

Example classify_digits : classify (VStr "12345") = verdict VNone (VStr "12345").
Proof. apply classify_without_letters. intros ch [<- | [<- | [<- | [<- | [<- | []]]]]]; reflexivity. Qed.

(** No answer from the adapter, or an answer that is no string, gives no
    category either. *)
Example classify_failures :
  classify VNone = verdict VNone (VStr "")
  /\ classify (VInt 5) = verdict VNone (VStr "'int' object has no attribute 'upper'").
Proof. split; reflexivity. Qed.

(** ** The verdict is a dict, and a dict with two keys is truthy *)

Lemma scan_letters_verdict (raw : value) (ls : list string) (v : value) :
  scan_letters raw ls = Ok v -> exists cat, v = verdict cat raw.
Proof.
  induction ls as [| ch ls IH]; cbn [scan_letters].
  - intros [= <-]. now eexists.
  - destruct (str_upper raw) as [up | e]; cbn [bind]; [| discriminate].
    destruct (str_contains ch up); [| exact IH].
    intros [= <-]. now eexists.
Qed.

Lemma classify_truthy (resp_text : value) : truthy (classify resp_text) = true.
Proof.
  unfold classify.
  destruct (scan_letters _ _) as [v | e] eqn:E; [| reflexivity].
  apply scan_letters_verdict in E as (cat & ->). reflexivity.
Qed.

Lemma valid_prompt_run (c : clients) (prompt model_id : string) (log : list call) :
  exists body,
    valid_prompt c prompt model_id log
    = (classify (fst (generate_response c (system_message ++ newline ++ newline ++ prompt)
                        model_id float_0_0 float_1_0 8 log)),
       (log ++ [InvokeModel model_id body])%list).
Proof.
  eexists. unfold valid_prompt, generate_response, io_bind, invoke_model, ret.
  cbn [fst]. reflexivity.
Qed.

(** The test [if valid_prompt(...)] of the chat turn always succeeds. *)
Lemma gate_always_passes (c : clients) (prompt model_id : string) (log : list call) :
  truthy (fst (valid_prompt c prompt model_id log)) = true.
Proof.
  destruct (valid_prompt_run c prompt model_id log) as (body & ->).
  apply classify_truthy.
Qed.

(** Every chat turn makes the gate call, one retrieval call and one
    generation call, in that order. *)
Lemma chat_turn_calls (c : clients) (prompt model_id kb_id : string) (temperature top_p : value)
    (log : list call) :
  exists gate_body generation_body,
    snd (chat_turn c prompt model_id kb_id temperature top_p log)
    = (log ++ [InvokeModel model_id gate_body;
               Retrieve kb_id prompt 3;
               InvokeModel model_id generation_body])%list.
Proof.
  unfold chat_turn. unfold io_bind at 1.
  destruct (valid_prompt_run c prompt model_id log) as (body & Hrun).
  rewrite Hrun. rewrite classify_truthy.
  unfold io_bind. rewrite retrieval_properties.query_knowledge_base_run.
  unfold generate_response, io_bind, invoke_model, ret. cbn [snd].
  do 2 eexists. rewrite <- !app_assoc. reflexivity.
Qed.

Definition is_retrieve (x : call) : bool :=
  match x with Retrieve _ _ _ => true | InvokeModel _ _ => false end.

Definition retrievals (log : list call) : nat := List.length (filter is_retrieve log).
Definition invocations (log : list call) : nat := List.length (filter (fun x => negb (is_retrieve x)) log).

(** C1 on a turn whose gate finds no category: the model answers the
    classification request with digits. The verdict has category [None], yet
    the turn goes on: it queries the knowledge base, invokes the model a
    second time for the answer, and returns that answer, not the rejection
    message. *)
Theorem unclassified_prompt_is_answered :
  let c := model_says "12345" "The blade holds 34 cubic metres." in
  let turn := chat_turn c "How large is the blade?" haiku "9HOYRJWGB7" float_0_0 float_1_0 [] in
  category (fst (valid_prompt c "How large is the blade?" haiku [])) = VNone
  /\ fst turn = VStr "The blade holds 34 cubic metres."
  /\ fst turn <> VStr rejection
  /\ retrievals (snd turn) = 1
  /\ invocations (snd turn) = 2.
Proof.
  cbv zeta. repeat split; try (vm_compute; reflexivity).
  vm_compute. discriminate.
Qed.

End gate_properties.

(* ===================================================================== *)
(** * Further properties of the model payload adapter *)
(* ===================================================================== *)

Module adapter_more.
Import Py bedrock_utils.

Definition holds_str (d : list (string * value)) (k : string) : bool :=
  match lookup d k with
  | Some (VStr _) => true
  | _ => false
  end.

Lemma first_str_found (d : list (string * value)) (before after : list string)
    (k s : string) :
  forallb (fun k' => negb (holds_str d k')) before = true ->
  lookup d k = Some (VStr s) ->
  first_str d (before ++ k :: after) = Some (VStr s).
Proof.
  intros Hbefore Hk.
  induction before as [| k' before IH]; cbn [app first_str].
  - now rewrite Hk.
  - cbn [forallb] in Hbefore. apply andb_prop in Hbefore as [Hk' Hbefore].
    unfold holds_str in Hk'.
    destruct (lookup d k') as [[| | | | s' | |] |];
      try discriminate Hk'; now apply IH.
Qed.

Lemma first_str_none (d : list (string * value)) (keys : list string) :
  forallb (fun k' => negb (holds_str d k')) keys = true ->
  first_str d keys = None.
Proof.
  induction keys as [| k keys IH]; cbn [forallb first_str]; [reflexivity |].
  intro H. apply andb_prop in H as [Hk Hkeys]. unfold holds_str in Hk.
  destruct (lookup d k) as [[| | | | s' | |] |]; try discriminate Hk; now apply IH.
Qed.

Lemma first_str_is_str (d : list (string * value)) (keys : list string) (v : value) :
  first_str d keys = Some v -> exists s, v = VStr s.
Proof.
  induction keys as [| k keys IH]; cbn [first_str]; [discriminate |].
  destruct (lookup d k) as [[| | | | s' | |] |]; try exact IH.
  intros [= <-]. now eexists.
Qed.

Lemma generate_response_run (c : clients) (prompt model_id : string)
    (temperature top_p : value) (max_tokens : Z) (log : list call) (data : value) :
  bedrock_invoke_model c log model_id
    (json_dumps (build_payload prompt model_id temperature top_p max_tokens)) = Ok data ->
  generate_response c prompt model_id temperature top_p max_tokens log
  = (extract_text data,
     (log ++ [InvokeModel model_id
                (json_dumps (build_payload prompt model_id temperature top_p max_tokens))])%list).
Proof.
  intro H. unfold generate_response, io_bind, invoke_model, ret. now rewrite H.
Qed.

(** X2: when the parsed response has a non-empty [content] list whose first
    element is a dict with a [text] key, the adapter returns the value under
    that key, whatever else the response holds and whatever the type of the
    value. *)
Theorem claude_content_comes_first (c : clients) (prompt model_id : string)
    (temperature top_p : value) (max_tokens : Z) (log : list call)
    (d first : list (string * value)) (others : list value) (t : value) :
  bedrock_invoke_model c log model_id
    (json_dumps (build_payload prompt model_id temperature top_p max_tokens)) = Ok (VDict d) ->
  lookup d "content" = Some (VList (VDict first :: others)) ->
  lookup first "text" = Some t ->
  fst (generate_response c prompt model_id temperature top_p max_tokens log) = t.
Proof.
  intros Hcall Hcontent Htext.
  rewrite (generate_response_run _ _ _ _ _ _ _ _ Hcall). cbn [fst].
  unfold extract_text, content_text. now rewrite Hcontent, Htext.
Qed.

(** A response with both a Claude [content] block (here holding a number)
    and a generic [output] string. *)
Definition mixed_response : list (string * value) :=
  [("output", VStr "generic"); ("content", VList [VDict [("text", VInt 42)]; VStr "tail"])].

Definition answers_with (data : value) : clients := {|
  bedrock_kb_retrieve := fun _ _ _ _ => Ok (VDict []);
  bedrock_invoke_model := fun _ _ _ => Ok data
|}.

Lemma claude_content_comes_first_witness :
  fst (generate_response (answers_with (VDict mixed_response)) "hi" "m" float_0_0 float_1_0 512 [])
  = VInt 42.
Proof.
  apply (claude_content_comes_first (answers_with (VDict mixed_response)) "hi" "m"
           float_0_0 float_1_0 512 [] mixed_response [("text", VInt 42)] [VStr "tail"]);
    reflexivity.
Defined.

(** X3: unless the text is taken from [content[0]['text']], what is
    extracted from a parsed response is a string: one of the probed string
    fields, or the serialisation of the whole response. *)
Theorem extracted_text_is_str (data : value) :
  (forall d, data = VDict d -> content_text d = None) ->
  exists s, extract_text data = VStr s.
Proof.
  intro H. destruct data as [| b | z | f | s | l | d];
    try (cbn [extract_text]; now eexists).
  unfold extract_text. rewrite (H d eq_refl).
  destruct (first_str d _) as [v |] eqn:E1; [exact (first_str_is_str _ _ _ E1) |].
  destruct (results_text d) as [v |] eqn:E2; [| now eexists].
  unfold results_text in E2.
  destruct (lookup d "results") as [[| | | | | [| [| | | | | | r0] l] |] |];
    try discriminate E2.
  exact (first_str_is_str _ _ _ E2).
Qed.

Lemma extracted_text_is_str_witness :
  exists s, extract_text (VDict [("completion", VInt 7)]) = VStr s.
Proof.
  apply (extracted_text_is_str (VDict [("completion", VInt 7)])).
  intros d [= <-]. reflexivity.
Defined.

(** X4: among the generic fields the first, in the order output,
    generatedText, text, result, that holds a string is returned; a field
    that holds something else is passed over. *)
Theorem generic_field_order (d : list (string * value)) (before after : list string)
    (k s : string) :
  content_text d = None ->
  ["output"; "generatedText"; "text"; "result"] = (before ++ k :: after)%list ->
  forallb (fun k' => negb (holds_str d k')) before = true ->
  lookup d k = Some (VStr s) ->
  extract_text (VDict d) = VStr s.
Proof.
  intros Hcontent Hkeys Hbefore Hk.
  unfold extract_text. rewrite Hcontent, Hkeys.
  now rewrite (first_str_found d before after k s Hbefore Hk).
Qed.

Lemma generic_field_order_witness :
  extract_text (VDict [("result", VStr "late"); ("output", VInt 0); ("text", VStr "early")])
  = VStr "early".
Proof.
  apply (generic_field_order
           [("result", VStr "late"); ("output", VInt 0); ("text", VStr "early")]
           ["output"; "generatedText"] ["result"] "text" "early"); reflexivity.
Defined.

(** X5: when neither a [content] block nor a generic string field is there,
    a non-empty [results] list whose first element is a dict gives the first
    string among its output, text, generatedText. *)
Theorem wrapped_results_order (d r0 : list (string * value)) (others : list value)
    (before after : list string) (k s : string) :
  content_text d = None ->
  forallb (fun k' => negb (holds_str d k')) ["output"; "generatedText"; "text"; "result"] = true ->
  lookup d "results" = Some (VList (VDict r0 :: others)) ->
  ["output"; "text"; "generatedText"] = (before ++ k :: after)%list ->
  forallb (fun k' => negb (holds_str r0 k')) before = true ->
  lookup r0 k = Some (VStr s) ->
  extract_text (VDict d) = VStr s.
Proof.
  intros Hcontent Hnone Hresults Hkeys Hbefore Hk.
  unfold extract_text. rewrite Hcontent, (first_str_none d _ Hnone).
  unfold results_text. rewrite Hresults, Hkeys.
  now rewrite (first_str_found r0 before after k s Hbefore Hk).
Qed.

Lemma wrapped_results_order_witness :
  extract_text (VDict [("results", VList [VDict [("generatedText", VStr "b"); ("text", VStr "a")]])])
  = VStr "a".
Proof.
  apply (wrapped_results_order
           [("results", VList [VDict [("generatedText", VStr "b"); ("text", VStr "a")]])]
           [("generatedText", VStr "b"); ("text", VStr "a")] []
           ["output"] ["generatedText"] "text" "a"); reflexivity.
Defined.

(** X6: a response none of the probes match comes back serialised whole, so
    a parsed response never yields [None] by itself. *)
Theorem unmatched_response_is_serialised (d : list (string * value)) :
  content_text d = None ->
  forallb (fun k' => negb (holds_str d k')) ["output"; "generatedText"; "text"; "result"] = true ->
  results_text d = None ->
  extract_text (VDict d) = VStr (json_dumps (VDict d)).
Proof.
  intros Hcontent Hnone Hresults.
  unfold extract_text. now rewrite Hcontent, (first_str_none d _ Hnone), Hresults.
Qed.

Lemma unmatched_response_is_serialised_witness :
  extract_text (VDict [("outputText", VStr "x")])
  = VStr (json_dumps (VDict [("outputText", VStr "x")])).
Proof.
  apply (unmatched_response_is_serialised [("outputText", VStr "x")]); reflexivity.
Defined.

(** A model runtime whose every call fails with [e]. *)
Definition model_fails (e : exn) : clients := {|
  bedrock_kb_retrieve := fun _ _ _ _ => Ok (VDict [("retrievalResults", VList [])]);
  bedrock_invoke_model := fun _ _ _ => Raise e
|}.

Lemma generate_response_absorbs_witness :
  generate_response (model_fails (ClientError "AccessDeniedException")) "hi" "m"
    float_0_0 float_1_0 512 []
  = (VNone,
     [InvokeModel "m" (json_dumps (build_payload "hi" "m" float_0_0 float_1_0 512))]).
Proof.
  apply (adapter_properties.generate_response_absorbs
           (model_fails (ClientError "AccessDeniedException")) "hi" "m"
           float_0_0 float_1_0 512 [] (ClientError "AccessDeniedException")).
  reflexivity.
Defined.

End adapter_more.

(* ===================================================================== *)
(** * Further properties of the prompt gate *)
(* ===================================================================== *)

Module gate_more.
Import Py bedrock_utils.
Local Open Scope py_scope.

(** The request the gate sends: the fixed instruction, a blank line and the
    prompt, with temperature 0.0, top_p 1.0 and 8 tokens. *)
Definition gate_body (prompt model_id : string) : string :=
  json_dumps (build_payload (system_message ++ newline ++ newline ++ prompt) model_id
                float_0_0 float_1_0 8).

(** X7: when the model call of the gate fails, the verdict has no category
    and an empty raw text; the exception is not passed on, and the one call
    that was made is the gate's 8-token request. *)
Theorem gate_absorbs_adapter_failure (c : clients) (prompt model_id : string)
    (log : list call) (e : exn) :
  bedrock_invoke_model c log model_id (gate_body prompt model_id) = Raise e ->
  valid_prompt c prompt model_id log
  = (verdict VNone (VStr ""), (log ++ [InvokeModel model_id (gate_body prompt model_id)])%list).
Proof.
  intro H. unfold gate_body in *.
  unfold valid_prompt, generate_response, io_bind, invoke_model, ret.
  rewrite H. now destruct e.
Qed.

Lemma gate_absorbs_adapter_failure_witness :
  valid_prompt (adapter_more.model_fails (OtherException "timed out")) "hi" "m" []
  = (verdict VNone (VStr ""), [InvokeModel "m" (gate_body "hi" "m")]).
Proof.
  apply (gate_absorbs_adapter_failure (adapter_more.model_fails (OtherException "timed out"))
           "hi" "m" [] (OtherException "timed out")).
  reflexivity.
Defined.

Lemma scan_letters_first (s : string) (before after : list string) (ch : string) :
  forallb (fun l => negb (str_contains l (upper s))) before = true ->
  str_contains ch (upper s) = true ->
  scan_letters (VStr s) (before ++ ch :: after) = Ok (verdict (VStr ch) (VStr s)).
Proof.
  intros Hbefore Hch.
  induction before as [| l before IH]; cbn [app scan_letters str_upper bind].
  - now rewrite Hch.
  - cbn [forallb] in Hbefore. apply andb_prop in Hbefore as [Hl Hbefore].
    destruct (str_contains l (upper s)); [discriminate Hl | now apply IH].
Qed.

(** X8: the category is decided by the order A, B, C, D, E and not by the
    position in the text: it is the first of the five letters that occurs
    anywhere in the upper-cased answer. *)
Theorem category_is_first_letter_in_order (s : string) (before after : list string)
    (ch : string) :
  ["A"; "B"; "C"; "D"; "E"] = (before ++ ch :: after)%list ->
  forallb (fun l => negb (str_contains l (upper s))) before = true ->
  str_contains ch (upper s) = true ->
  classify (VStr s) = verdict (VStr ch) (VStr s).
Proof.
  intros Hletters Hbefore Hch. unfold classify.
  assert (Hne : truthy (VStr s) = true).
  { destruct s; [| reflexivity].
    cbn in Hch. destruct ch; [| discriminate Hch].
    destruct before as [| ? [| ? [| ? [| ? [| ? [| ? ?]]]]]]; discriminate Hletters. }
  rewrite Hne, Hletters.
  now rewrite (scan_letters_first s before after ch Hbefore Hch).
Qed.

Lemma category_is_first_letter_in_order_witness :
  classify (VStr "e, then d") = verdict (VStr "D") (VStr "e, then d").
Proof.
  apply (category_is_first_letter_in_order "e, then d" ["A"; "B"; "C"] ["E"] "D");
    reflexivity.
Defined.

(** X9: an answer of the adapter that is truthy but no string (it can come
    from [content[0]['text']]) has no [upper]; the exception is caught, the
    category is absent and the raw text is the message of the exception. *)
Theorem non_string_answer_has_no_category (v : value) :
  truthy v = true -> is_str v = false ->
  classify v
  = verdict VNone (VStr ("'" ++ type_name v ++ "' object has no attribute 'upper'")).
Proof.
  intros Ht Hs. unfold classify. rewrite Ht.
  destruct v; try discriminate Hs; reflexivity.
Qed.

Lemma non_string_answer_has_no_category_witness :
  classify (VList [VStr "Category B"])
  = verdict VNone (VStr "'list' object has no attribute 'upper'").
Proof.
  apply (non_string_answer_has_no_category (VList [VStr "Category B"])); reflexivity.
Defined.

(** X10: the gate always makes exactly one model call, and its verdict is a
    dict with the two keys category and raw, the category being one of the
    five letters or [None]. *)
Theorem gate_verdict_shape (c : clients) (prompt model_id : string) (log : list call) :
  snd (valid_prompt c prompt model_id log)
  = (log ++ [InvokeModel model_id (gate_body prompt model_id)])%list
  /\ exists cat raw,
       fst (valid_prompt c prompt model_id log) = verdict cat raw
       /\ (cat = VNone \/ In cat (map VStr ["A"; "B"; "C"; "D"; "E"])).
Proof.
  split; [reflexivity |].
  unfold valid_prompt, io_bind, ret.
  destruct (generate_response _ _ _ _ _ _ log) as [resp_text log'] eqn:E. cbn [fst].
  unfold classify. set (raw := if truthy resp_text then resp_text else VStr "").
  destruct (str_upper raw) as [up | e] eqn:Eup.
  - cbn [scan_letters bind]. rewrite Eup. cbn [bind].
    repeat match goal with
           | |- context [if str_contains ?l up then _ else _] =>
               destruct (str_contains l up);
               [do 2 eexists; split; [reflexivity | right; cbn; tauto] |]
           end.
    do 2 eexists. split; [reflexivity | now left].
  - cbn [scan_letters bind]. rewrite Eup. cbn [bind].
    do 2 eexists. split; [reflexivity | now left].
Qed.

End gate_more.

(* ===================================================================== *)
(** * Further properties of the knowledge-base query *)
(* ===================================================================== *)

Module retrieval_more.
Import Py bedrock_utils retrieval_properties.
Local Open Scope py_scope.

(** ** Comprehensions whose body may raise *)

Lemma bind_Ok_inv {A B : Type} (r : result A) (k : A -> result B) (b : B) :
  bind r k = Ok b -> exists a, r = Ok a /\ k a = Ok b.
Proof.
  destruct r as [a | e]; cbn [bind]; [| discriminate]. intro H. now exists a.
Qed.

Lemma map_result_Forall2 {A B : Type} (f : A -> result B) (l : list A) (ys : list B) :
  map_result f l = Ok ys -> Forall2 (fun x y => f x = Ok y) l ys.
Proof.
  revert ys. induction l as [| x l IH]; intro ys; cbn [map_result].
  - intros [= <-]. constructor.
  - destruct (f x) as [y | e] eqn:Ex; [| discriminate].
    destruct (map_result f l) as [ys' | e]; [| discriminate].
    intros [= <-]. constructor; [exact Ex | now apply IH].
Qed.

Lemma map_result_total {A B : Type} (f : A -> result B) (l : list A) :
  Forall (fun x => exists y, f x = Ok y) l -> exists ys, map_result f l = Ok ys.
Proof.
  induction 1 as [| x l [y Hy] _ [ys Hys]]; cbn [map_result].
  - now eexists.
  - rewrite Hy, Hys. now eexists.
Qed.

Lemma map_result_raises {A B : Type} (f : A -> result B) (l : list A) (x : A) (e : exn) :
  In x l -> f x = Raise e -> exists e', map_result f l = Raise e'.
Proof.
  intros Hin Hx. induction l as [| x' l IH]; [contradiction |].
  cbn [map_result]. destruct Hin as [-> | Hin].
  - rewrite Hx. now eexists.
  - destruct (f x') as [y | e0]; [| now eexists].
    destruct (IH Hin) as [e' ->]. now eexists.
Qed.

(** ** The shape of what comes back *)

Definition is_passage (p : value) : Prop :=
  exists doc_id text metadata score, p = passage doc_id text metadata score.

Lemma normalize_gives_passage (item p : value) :
  _normalize_retrieval_item item = Ok p -> is_passage p.
Proof.
  unfold is_passage.
  destruct item as [| b | z | f | s | l | d];
    try (cbn [_normalize_retrieval_item]; intros [= <-]; now do 4 eexists).
  cbn [_normalize_retrieval_item]. intro H.
  repeat match type of H with
         | bind _ _ = Ok _ =>
             let a := fresh "a" in
             let Ha := fresh "Ha" in
             apply bind_Ok_inv in H as (a & Ha & H)
         end.
  injection H as <-. now do 4 eexists.
Qed.

(** What the [try] body makes of a batch that is a list. *)
Lemma normalize_list_batch (c : clients) (query kb_id : string) (top_k : Z)
    (log : list call) (response : value) (l : list value) :
  bedrock_kb_retrieve c log kb_id query top_k = Ok response ->
  extract_results response = Ok (VList l) ->
  fst (query_knowledge_base c query kb_id top_k log) = passages_of l.
Proof.
  intros Hcall Hextract.
  rewrite query_knowledge_base_run, Hcall. cbn [fst bind].
  unfold normalize_response. rewrite Hextract. cbn [bind].
  unfold passages_of. destruct l as [| x l]; reflexivity.
Qed.

(** X11: whatever the service does, the function makes exactly one retrieve
    call, with the caller's knowledge-base id, query and result count, and
    every element of the list it returns is a dict with exactly the keys id,
    text, metadata, score. *)
Theorem query_returns_passages (c : clients) (query kb_id : string) (top_k : Z)
    (log : list call) :
  snd (query_knowledge_base c query kb_id top_k log)
  = (log ++ [Retrieve kb_id query top_k])%list
  /\ Forall is_passage (fst (query_knowledge_base c query kb_id top_k log)).
Proof.
  rewrite query_knowledge_base_run. split; [reflexivity |]. cbn [fst].
  destruct (bind _ normalize_response) as [normalized | e] eqn:E; [| constructor].
  apply bind_Ok_inv in E as (response & _ & E).
  unfold normalize_response in E.
  apply bind_Ok_inv in E as (results & _ & E).
  apply bind_Ok_inv in E as (items & _ & E).
  apply map_result_Forall2 in E. clear - E.
  induction E as [| item p items ps Hp _ IH]; constructor; [| exact IH].
  exact (normalize_gives_passage item p Hp).
Qed.

(** An item [_normalize_retrieval_item] has a usable [document] for: not a
    record, or a record whose [document] is missing, falsy or a record. *)
Definition document_usable (item : value) : bool :=
  match item with
  | VDict d => normalizer_properties.document_is_record_or_absent d
  | _ => true
  end.

Lemma usable_item_normalises (item : value) :
  document_usable item = true -> exists p, _normalize_retrieval_item item = Ok p.
Proof.
  destruct item as [| b | z | f | s | l | d];
    try (intros _; cbn [_normalize_retrieval_item]; now eexists).
  cbn [document_usable]. intro H.
  destruct (normalizer_properties.normalize_record d H) as (a & m & sc & ->). now eexists.
Qed.

(** X12: when the batch is a list of items with a usable [document], the
    passages are the normalised items, one per item and in the order the
    service returned them. *)
Theorem passages_follow_the_batch (c : clients) (query kb_id : string) (top_k : Z)
    (log : list call) (response : value) (l : list value) :
  bedrock_kb_retrieve c log kb_id query top_k = Ok response ->
  extract_results response = Ok (VList l) ->
  forallb document_usable l = true ->
  Forall2 (fun item p => _normalize_retrieval_item item = Ok p)
    l (fst (query_knowledge_base c query kb_id top_k log)).
Proof.
  intros Hcall Hextract Husable.
  rewrite (normalize_list_batch _ _ _ _ _ _ _ Hcall Hextract). unfold passages_of.
  destruct (map_result_total _normalize_retrieval_item l) as [ps Hps].
  { apply Forall_forall. intros item Hin. apply usable_item_normalises.
    rewrite forallb_forall in Husable. now apply Husable. }
  rewrite Hps. now apply map_result_Forall2.
Qed.

Definition two_items : list value :=
  [VDict [("content", VDict [("text", VStr "first")]); ("score", VInt 2)];
   VDict [("text", VStr "second"); ("document", VDict [("id", VStr "doc-2")])]].

Lemma passages_follow_the_batch_witness :
  Forall2 (fun item p => _normalize_retrieval_item item = Ok p) two_items
    (fst (query_knowledge_base (kb_answers (VDict [("retrievalResults", VList two_items)]))
            "q" "kb" 3 [])).
Proof.
  apply (passages_follow_the_batch (kb_answers (VDict [("retrievalResults", VList two_items)]))
           "q" "kb" 3 [] (VDict [("retrievalResults", VList two_items)]) two_items);
    reflexivity.
Defined.

(** X13: one item that raises while it is normalised costs the whole batch:
    the comprehension is inside the [try], so the answer is the empty list. *)
Theorem one_bad_item_empties_the_batch (c : clients) (query kb_id : string) (top_k : Z)
    (log : list call) (response : value) (l : list value) (item : value) (e : exn) :
  bedrock_kb_retrieve c log kb_id query top_k = Ok response ->
  extract_results response = Ok (VList l) ->
  In item l ->
  _normalize_retrieval_item item = Raise e ->
  fst (query_knowledge_base c query kb_id top_k log) = [].
Proof.
  intros Hcall Hextract Hin Hraise.
  rewrite (normalize_list_batch _ _ _ _ _ _ _ Hcall Hextract). unfold passages_of.
  destruct (map_result_raises _ l item e Hin Hraise) as [e' ->]. reflexivity.
Qed.

Definition good_and_bad : list value :=
  [VDict [("text", VStr "kept?")]; VDict [("document", VInt 7)]].

Lemma one_bad_item_empties_the_batch_witness :
  fst (query_knowledge_base (kb_answers (VDict [("results", VList good_and_bad)])) "q" "kb" 3 [])
  = [].
Proof.
  apply (one_bad_item_empties_the_batch (kb_answers (VDict [("results", VList good_and_bad)]))
           "q" "kb" 3 [] (VDict [("results", VList good_and_bad)]) good_and_bad
           (VDict [("document", VInt 7)])
           (AttributeError "'int' object has no attribute 'get'")).
  - reflexivity.
  - reflexivity.
  - right. left. reflexivity.
  - reflexivity.
Defined.

(** ** The first round of key probing *)

Lemma extract_results_first (d : list (string * value)) (before after : list string)
    (k : string) (v : value) :
  ["retrievalResults"; "results"; "items"; "hits"] = (before ++ k :: after)%list ->
  forallb (fun k' => negb (truthy (dict_get d k'))) before = true ->
  lookup d k = Some v -> truthy v = true ->
  extract_results (VDict d) = Ok v.
Proof.
  intros Hkeys Hbefore Hk Hv.
  assert (Hget : dict_get d k = v) by (unfold dict_get; now rewrite Hk).
  unfold extract_results. cbn [get].
  assert (Hor : forall a y, truthy a = false -> (Ok a or y) = y)
    by (intros a y Ha; unfold py_or; now rewrite Ha).
  assert (Hhit : forall y, (Ok (dict_get d k) or y) = Ok v)
    by (intro y; unfold py_or; now rewrite Hget, Hv).
  destruct before as [| k1 [| k2 [| k3 [| k4 before]]]];
    cbn [app] in Hkeys; inversion Hkeys; subst;
    try match goal with H : [] = (_ ++ _ :: _)%list |- _ =>
          apply app_cons_not_nil in H; contradiction end;
    cbn [forallb] in Hbefore;
    repeat match type of Hbefore with
           | (_ && _)%bool = true =>
               let H1 := fresh "Hf" in
               apply andb_prop in Hbefore as [H1 Hbefore];
               apply negb_true_iff in H1
           end;
    repeat (rewrite Hor by assumption); apply Hhit.
Qed.

(** X14: the batch is what the first of retrievalResults, results, items,
    hits with a truthy value holds: a key that is missing, [None] or an
    empty list is passed over, and later keys are not looked at. *)
Theorem batch_key_priority (c : clients) (query kb_id : string) (top_k : Z)
    (log : list call) (d : list (string * value)) (before after : list string)
    (k : string) (item : value) (l : list value) :
  bedrock_kb_retrieve c log kb_id query top_k = Ok (VDict d) ->
  ["retrievalResults"; "results"; "items"; "hits"] = (before ++ k :: after)%list ->
  forallb (fun k' => negb (truthy (dict_get d k'))) before = true ->
  lookup d k = Some (VList (item :: l)) ->
  fst (query_knowledge_base c query kb_id top_k log) = passages_of (item :: l).
Proof.
  intros Hcall Hkeys Hbefore Hk.
  apply (normalize_list_batch _ _ _ _ _ _ _ Hcall).
  now apply (extract_results_first d before after k).
Qed.

Definition empty_then_items : list (string * value) :=
  [("hits", VList [VStr "ignored"]); ("retrievalResults", VList []);
   ("items", VList [VStr "taken"])].

Lemma batch_key_priority_witness :
  fst (query_knowledge_base (kb_answers (VDict empty_then_items)) "q" "kb" 3 [])
  = passages_of [VStr "taken"].
Proof.
  apply (batch_key_priority (kb_answers (VDict empty_then_items)) "q" "kb" 3 []
           empty_then_items ["retrievalResults"; "results"] ["hits"] "items");
    reflexivity.
Defined.

(** X15: a response that is a dict without a truthy value under any of the
    four keys gives the empty list. *)
Theorem no_batch_key_no_passages (c : clients) (query kb_id : string) (top_k : Z)
    (log : list call) (d : list (string * value)) :
  bedrock_kb_retrieve c log kb_id query top_k = Ok (VDict d) ->
  forallb (fun k => negb (truthy (dict_get d k)))
    ["retrievalResults"; "results"; "items"; "hits"] = true ->
  fst (query_knowledge_base c query kb_id top_k log) = [].
Proof.
  intros Hcall Hnone.
  apply (normalize_list_batch _ _ _ _ _ (VDict d) [] Hcall).
  cbn [forallb] in Hnone.
  repeat match type of Hnone with
         | (_ && _)%bool = true =>
             let H1 := fresh "Hf" in
             apply andb_prop in Hnone as [H1 Hnone];
             apply negb_true_iff in H1
         end.
  unfold extract_results. cbn [get]. unfold py_or at 1. rewrite Hf.
  unfold py_or at 1. rewrite Hf0. unfold py_or at 1. rewrite Hf1.
  unfold py_or. now rewrite Hf2.
Qed.

Lemma no_batch_key_no_passages_witness :
  fst (query_knowledge_base
         (kb_answers (VDict [("ResponseMetadata", VDict [("HTTPStatusCode", VInt 200)]);
                             ("retrievalResults", VList [])]))
         "q" "kb" 3 [])
  = [].
Proof.
  apply (no_batch_key_no_passages _ "q" "kb" 3 []
           [("ResponseMetadata", VDict [("HTTPStatusCode", VInt 200)]);
            ("retrievalResults", VList [])]); reflexivity.
Defined.

Definition not_iterable (v : value) : bool :=
  match v with
  | VNone | VBool _ | VInt _ | VFloat _ => true
  | _ => false
  end.

(** X16: a response that is no dict, or a batch that is a number, a boolean
    or [None], cannot be taken apart; the exception this provokes stays
    inside and the answer is the empty list. *)
Theorem malformed_response_no_passages (c : clients) (query kb_id : string) (top_k : Z)
    (log : list call) (response : value) :
  bedrock_kb_retrieve c log kb_id query top_k = Ok response ->
  is_dict response = false
  \/ (exists v, extract_results response = Ok v /\ not_iterable v = true) ->
  fst (query_knowledge_base c query kb_id top_k log) = [].
Proof.
  intros Hcall H.
  rewrite query_knowledge_base_run, Hcall. cbn [fst bind].
  destruct H as [Hnd | (v & Hv & Hni)].
  - destruct response; try discriminate Hnd; reflexivity.
  - unfold normalize_response. rewrite Hv. cbn [bind].
    destruct v as [| [|] | z | f | s | l | d]; try discriminate Hni; cbn [truthy].
    + reflexivity.
    + reflexivity.
    + reflexivity.
    + destruct (negb (z =? 0)%Z); reflexivity.
    + destruct (negb (float_is_zero f)); reflexivity.
Qed.

Lemma malformed_response_no_passages_witness :
  fst (query_knowledge_base (kb_answers (VDict [("results", VInt 12)])) "q" "kb" 3 []) = [].
Proof.
  apply (malformed_response_no_passages _ "q" "kb" 3 [] (VDict [("results", VInt 12)])).
  - reflexivity.
  - right. exists (VInt 12). split; reflexivity.
Defined.

End retrieval_more.

(* ===================================================================== *)
(** * Further properties of the context assembler and of the chat turn *)
(* ===================================================================== *)

Module turn_properties.
Import Py bedrock_utils app app_properties.
Local Open Scope py_scope.
#[local] Set Warnings "-abstract-large-number".

(** ** What a normalised passage contributes *)

Lemma probe_text_passage (doc_id text metadata score : value) :
  probe_text (passage doc_id text metadata score)
  = match text with VStr s => Some s | _ => None end.
Proof. destruct text; reflexivity. Qed.

(** X17: a normalised passage whose text is a non-empty string contributes
    that string; one whose text is empty or no string contributes the JSON
    serialisation of the whole passage. *)
Theorem passage_resolution (doc_id text metadata score : value) :
  (forall s, text = VStr s -> s <> "" ->
     resolve_text (passage doc_id text metadata score) = s)
  /\ ((forall s, text = VStr s -> s = "") ->
      resolve_text (passage doc_id text metadata score)
      = json_dumps (passage doc_id text metadata score)).
Proof.
  unfold resolve_text. rewrite probe_text_passage. split.
  - intros s -> Hs. destruct s; [now elim Hs | reflexivity].
  - intro H. destruct text; try reflexivity.
    now rewrite (H s eq_refl).
Qed.

Definition is_dict_value (v : value) : Prop := exists d, v = VDict d.

Lemma context_pieces_keep_dicts (kb_results : list value) :
  Forall is_dict_value kb_results ->
  context_pieces kb_results = map (fun r => cap 5000 (resolve_text r)) kb_results.
Proof.
  intro H. rewrite context_pieces_filter.
  induction H as [| r rs [d ->] _ IH]; [reflexivity |].
  cbn [map filter]. rewrite resolve_text_dict_nonempty. cbn [map]. now rewrite IH.
Qed.

(** X18: every passage the knowledge-base query returns ends up in the
    context: the pieces are as many as the passages, since the serialisation
    of a dict is never empty. *)
Theorem no_passage_is_dropped (c : clients) (query kb_id : string) (top_k : Z)
    (log : list call) :
  let kb_results := fst (query_knowledge_base c query kb_id top_k log) in
  context_pieces kb_results = map (fun r => cap 5000 (resolve_text r)) kb_results
  /\ List.length (context_pieces kb_results) = List.length kb_results.
Proof.
  intro kb_results.
  assert (H : context_pieces kb_results
              = map (fun r => cap 5000 (resolve_text r)) kb_results).
  { apply context_pieces_keep_dicts.
    assert (Hp : Forall retrieval_more.is_passage kb_results).
    { subst kb_results. rewrite retrieval_properties.query_knowledge_base_run. cbn [fst].
      destruct (bind _ normalize_response) as [normalized | e] eqn:E; [| constructor].
      apply retrieval_more.bind_Ok_inv in E as (response & _ & E).
      unfold normalize_response in E.
      apply retrieval_more.bind_Ok_inv in E as (results & _ & E).
      apply retrieval_more.bind_Ok_inv in E as (items & _ & E).
      apply retrieval_more.map_result_Forall2 in E. clear - E.
      induction E as [| item p items ps Hp _ IH]; constructor; [| exact IH].
      exact (retrieval_more.normalize_gives_passage item p Hp). }
    eapply Forall_impl; [| exact Hp].
    intros p (a & t & m & s & ->). now eexists. }
  split; [exact H |]. now rewrite H, length_map.
Qed.

(** X19: passages whose texts are non-empty strings give a context that is
    the texts themselves, each capped at 5,000 characters, joined by
    newlines in the order of the passages, and capped at 15,000. *)
Theorem context_of_text_passages (kb_results : list value) (texts : list string) :
  Forall2 (fun r t => exists d, r = VDict d /\ lookup d "text" = Some (VStr t) /\ t <> "")
    kb_results texts ->
  assemble kb_results = cap 15000 (String.concat newline (map (cap 5000) texts)).
Proof.
  intro H. unfold assemble. f_equal. f_equal.
  rewrite context_pieces_filter.
  induction H as [| r t rs ts (d & -> & Ht & Hne) _ IH]; [reflexivity |].
  assert (Hr : resolve_text (VDict d) = t).
  { unfold resolve_text, probe_text. rewrite Ht.
    destruct t; [now elim Hne | reflexivity]. }
  cbn [map filter]. rewrite Hr.
  replace (nonempty t) with true by (destruct t; [now elim Hne | reflexivity]).
  cbn [map]. now rewrite IH.
Qed.

Lemma context_of_text_passages_witness :
  assemble [passage (VStr "a") (VStr "one") (VDict []) VNone;
            VDict [("text", VStr "two"); ("content", VStr "unused")]]
  = cap 15000 (String.concat newline (map (cap 5000) ["one"; "two"])).
Proof.
  apply (context_of_text_passages
           [passage (VStr "a") (VStr "one") (VDict []) VNone;
            VDict [("text", VStr "two"); ("content", VStr "unused")]] ["one"; "two"]).
  repeat constructor; eexists; (split; [reflexivity |]); (split; [reflexivity | discriminate]).
Defined.

Lemma map_cap_within (limit : nat) (texts : list string) :
  Forall (fun t => String.length t <= limit) texts -> map (cap limit) texts = texts.
Proof.
  induction 1 as [| t ts Ht _ IH]; [reflexivity |].
  cbn [map]. now rewrite (cap_within _ _ Ht), IH.
Qed.

(** X20: nothing is cut and no marker is added when every resolved text has
    at most 5,000 characters and their newline-join at most 15,000: the
    context is then exactly the join of the non-empty resolved texts. *)
Theorem small_context_is_untouched (kb_results : list value) :
  let texts := filter nonempty (map resolve_text kb_results) in
  Forall (fun t => String.length t <= 5000) texts ->
  String.length (String.concat newline texts) <= 15000 ->
  assemble kb_results = String.concat newline texts.
Proof.
  intros texts Hpieces Hjoined.
  unfold assemble. rewrite context_pieces_filter. fold texts.
  rewrite (map_cap_within _ _ Hpieces). now apply cap_within.
Qed.

Lemma small_context_is_untouched_witness :
  assemble [VDict [("text", VStr "blade"); ("score", VInt 1)]; VDict [("preview", VStr "bucket")]]
  = String.concat newline
      (filter nonempty
         (map resolve_text
            [VDict [("text", VStr "blade"); ("score", VInt 1)];
             VDict [("preview", VStr "bucket")]])).
Proof.
  apply (small_context_is_untouched
           [VDict [("text", VStr "blade"); ("score", VInt 1)]; VDict [("preview", VStr "bucket")]]).
  - repeat constructor.
  - apply Nat.leb_le. vm_compute. reflexivity.
Defined.

(** ** The chat turn after the gate *)

(** Line 78: the prompt of the generation call. *)
Definition final_prompt (context prompt : string) : string :=
  "Context: " ++ context ++ newline ++ newline ++ "User: " ++ prompt ++ newline ++ newline.

Definition accepted (c : clients) (prompt model_id : string) (log : list call) : Prop :=
  gate_properties.category (fst (valid_prompt c prompt model_id log)) <> VNone.

Lemma chat_turn_run (c : clients) (prompt model_id kb_id : string) (temperature top_p : value)
    (log : list call) :
  let log1 := (log ++ [InvokeModel model_id (gate_more.gate_body prompt model_id)])%list in
  let kb := query_knowledge_base c prompt kb_id 3 log1 in
  chat_turn c prompt model_id kb_id temperature top_p log
  = generate_response c (final_prompt (assemble (fst kb)) prompt) model_id temperature top_p 512
      (snd kb).
Proof.
  intros log1 kb. unfold chat_turn. unfold io_bind at 1.
  destruct (gate_properties.valid_prompt_run c prompt model_id log) as (body & Hrun).
  assert (Hsnd : snd (valid_prompt c prompt model_id log) = log1) by reflexivity.
  rewrite Hrun in Hsnd |- *. cbn [snd] in Hsnd. rewrite Hsnd.
  rewrite gate_properties.classify_truthy.
  unfold io_bind. fold kb. now destruct kb.
Qed.

Lemma assemble_nil : assemble [] = "".
Proof. vm_compute. reflexivity. Qed.

(** X21: on an accepted prompt, a retrieval that fails does not stop the
    turn: the generation request is still sent, with an empty context
    between the two markers, after the gate call and the retrieve call. *)
Theorem failed_retrieval_gives_empty_context (c : clients) (prompt model_id kb_id : string)
    (temperature top_p : value) (log : list call) (e : exn) :
  accepted c prompt model_id log ->
  bedrock_kb_retrieve c
    (log ++ [InvokeModel model_id (gate_more.gate_body prompt model_id)])%list kb_id prompt 3
  = Raise e ->
  snd (chat_turn c prompt model_id kb_id temperature top_p log)
  = (log ++ [InvokeModel model_id (gate_more.gate_body prompt model_id);
             Retrieve kb_id prompt 3;
             InvokeModel model_id
               (json_dumps (build_payload (final_prompt "" prompt) model_id
                              temperature top_p 512))])%list.
Proof.
  intros _ Hfail. rewrite chat_turn_run.
  rewrite retrieval_properties.query_knowledge_base_run, Hfail. cbn [fst snd bind].
  unfold generate_response, io_bind, invoke_model, ret. cbn [snd].
  rewrite assemble_nil, <- !app_assoc. reflexivity.
Qed.

(** A model runtime that answers every request in the Claude shape with
    [text], next to a knowledge base that is out of reach. *)
Definition kb_down (text : string) : clients := {|
  bedrock_kb_retrieve := fun _ _ _ _ => Raise (ClientError "ResourceNotFoundException");
  bedrock_invoke_model := fun _ _ _ => Ok (VDict [("content", VList [VDict [("text", VStr text)]])])
|}.

Lemma failed_retrieval_gives_empty_context_witness :
  snd (chat_turn (kb_down "B") "hi" "m" "kb" float_0_0 float_1_0 [])
  = [InvokeModel "m" (gate_more.gate_body "hi" "m");
     Retrieve "kb" "hi" 3;
     InvokeModel "m"
       (json_dumps (build_payload (final_prompt "" "hi") "m" float_0_0 float_1_0 512))].
Proof.
  apply (failed_retrieval_gives_empty_context (kb_down "B") "hi" "m" "kb"
           float_0_0 float_1_0 [] (ClientError "ResourceNotFoundException")).
  - unfold accepted. vm_compute. discriminate.
  - reflexivity.
Defined.

(** X22: on an accepted prompt, the answer of the turn is what the adapter
    extracts from the response to the generation request, whose prompt is the
    assembled context of the retrieved passages between the two markers; a
    failed generation call makes the answer [None]. *)
Theorem turn_answer (c : clients) (prompt model_id kb_id : string)
    (temperature top_p : value) (log : list call) :
  let log1 := (log ++ [InvokeModel model_id (gate_more.gate_body prompt model_id)])%list in
  let kb_results := fst (query_knowledge_base c prompt kb_id 3 log1) in
  let log2 := (log1 ++ [Retrieve kb_id prompt 3])%list in
  let body := json_dumps (build_payload (final_prompt (assemble kb_results) prompt) model_id
                            temperature top_p 512) in
  accepted c prompt model_id log ->
  fst (chat_turn c prompt model_id kb_id temperature top_p log)
  = match bedrock_invoke_model c log2 model_id body with
    | Ok data => extract_text data
    | Raise _ => VNone
    end.
Proof.
  intros log1 kb_results log2 body _. rewrite chat_turn_run. cbv zeta. fold log1.
  assert (Hsnd : snd (query_knowledge_base c prompt kb_id 3 log1) = log2)
    by (rewrite retrieval_properties.query_knowledge_base_run; reflexivity).
  rewrite Hsnd. fold kb_results.
  unfold generate_response, io_bind, invoke_model, ret. fold body. cbn [fst].
  destruct (bedrock_invoke_model c log2 model_id body) as [data | []]; reflexivity.
Qed.

Lemma turn_answer_witness :
  fst (chat_turn (gate_properties.model_says "Category B" "34 cubic metres") "blade?"
         gate_properties.haiku "kb" float_0_0 float_1_0 [])
  = VStr "34 cubic metres".
Proof.
  refine (eq_trans
            (turn_answer (gate_properties.model_says "Category B" "34 cubic metres") "blade?"
               gate_properties.haiku "kb" float_0_0 float_1_0 [] _) _).
  - unfold accepted. vm_compute. discriminate.
  - vm_compute. reflexivity.
Defined.

End turn_properties.

(* ===================================================================== *)
(** * scripts/run_sql_rdsdata.py: the statement splitter *)
(* ===================================================================== *)

Module run_sql_rdsdata.
Import Py.

(** [c.isspace()] on ASCII: tab to carriage return, the four separators
    0x1c to 0x1f, and the space. *)
Definition is_space (c : ascii) : bool :=
  let n := nat_of_ascii c in
  (((9 <=? n) && (n <=? 13)) || ((28 <=? n) && (n <=? 32)))%nat.

(** [s.lstrip()], [s.rstrip()] and [s.strip()]. *)
Fixpoint lstrip (s : string) : string :=
  match s with
  | EmptyString => EmptyString
  | String c s' => if is_space c then lstrip s' else s
  end.

Fixpoint rstrip (s : string) : string :=
  match s with
  | EmptyString => EmptyString
  | String c s' =>
      let r := rstrip s' in
      if is_space c && is_empty r then EmptyString else String c r
  end.

Definition strip (s : string) : string := rstrip (lstrip s).

(** [stmt = ''.join(current).strip(); if stmt: statements.append(stmt)]. *)
Definition push (statements : list string) (current : string) : list string :=
  let stmt := strip current in
  if negb (is_empty stmt) then (statements ++ [stmt])%list else statements.

(** The [while] loop (lines 65-83) on the text from index [i] on, and the
    lines after it (86-89). [current] is the joined list of pieces. *)
Fixpoint split_loop (sql_text : string) (in_dollar : bool) (current : string)
    (statements : list string) : list string :=
  match sql_text with
  | EmptyString => push statements current
  | String ch rest =>
      match rest with
      | String ch2 rest' =>
          if ((ch =? "$") && (ch2 =? "$"))%char then
            split_loop rest' (negb in_dollar) (current ++ "$$") statements
          else if (ch =? ";")%char && negb in_dollar then
            split_loop rest in_dollar "" (push statements current)
          else
            split_loop rest in_dollar (current ++ String ch "") statements
      | EmptyString =>
          if (ch =? ";")%char && negb in_dollar then
            split_loop rest in_dollar "" (push statements current)
          else
            split_loop rest in_dollar (current ++ String ch "") statements
      end
  end.

Definition split_sql_preserve_dollar (sql_text : string) : list string :=
  split_loop sql_text false "" [].

End run_sql_rdsdata.

(* ===================================================================== *)
(** * scripts/diagnose_kb.py: the bucket name *)
(* ===================================================================== *)

Module diagnose_kb.
Import Py.

(** [s.split(sep, 1)[1]] when [sep] occurs in [s]: what follows its first
    occurrence ([None] stands for the [IndexError] when it does not occur). *)
Fixpoint after_first (sep s : string) : option string :=
  if prefix sep s then Some (substring (String.length sep) (String.length s) s)
  else
    match s with
    | EmptyString => None
    | String _ s' => after_first sep s'
    end.

Definition extract_bucket_name (s : value) : result value :=
  if negb (truthy s) then Ok VNone
  else
    match s with
    | VStr t =>
        if prefix "arn:aws:s3:::" t then
          match after_first ":::" t with
          | Some name => Ok (VStr name)
          | None => Raise (OtherException "list index out of range")
          end
        else Ok s
    | _ => Raise (no_attribute s "startswith")
    end.

End diagnose_kb.

(* ===================================================================== *)
(** * Properties of the statement splitter and of the bucket name *)
(* ===================================================================== *)

Module script_properties.
Import Py run_sql_rdsdata diagnose_kb.

(** [c] occurs in [s]. *)
Fixpoint has_char (c : ascii) (s : string) : bool :=
  match s with
  | EmptyString => false
  | String c' s' => (c' =? c)%char || has_char c s'
  end.

Lemma has_char_append (c : ascii) (s t : string) :
  has_char c (s ++ t) = has_char c s || has_char c t.
Proof.
  induction s as [| c' s IH]; cbn [append has_char]; [reflexivity |].
  now rewrite IH, orb_assoc.
Qed.

Lemma append_assoc (s t u : string) : (s ++ t) ++ u = s ++ (t ++ u).
Proof. induction s as [| c s IH]; cbn [append]; [reflexivity | now rewrite IH]. Qed.

Lemma append_empty_r (s : string) : s ++ "" = s.
Proof. induction s as [| c s IH]; cbn [append]; [reflexivity | now rewrite IH]. Qed.

(** ** Stripping *)

Definition starts_clean (s : string) : Prop :=
  match s with
  | EmptyString => True
  | String c _ => is_space c = false
  end.

Lemma lstrip_starts_clean (s : string) : starts_clean (lstrip s).
Proof.
  induction s as [| c s IH]; cbn [lstrip]; [exact I |].
  destruct (is_space c) eqn:E; [exact IH | exact E].
Qed.

Lemma lstrip_clean (s : string) : starts_clean s -> lstrip s = s.
Proof. destruct s as [| c s]; cbn; [reflexivity | now intros ->]. Qed.

Lemma rstrip_starts_clean (s : string) : starts_clean s -> starts_clean (rstrip s).
Proof.
  destruct s as [| c s]; cbn [starts_clean rstrip]; [exact id |].
  intro H. rewrite H. exact H.
Qed.

Lemma rstrip_idempotent (s : string) : rstrip (rstrip s) = rstrip s.
Proof.
  induction s as [| c s IH]; cbn [rstrip]; [reflexivity |].
  destruct (is_space c && is_empty (rstrip s)) eqn:E; [reflexivity |].
  cbn [rstrip]. now rewrite IH, E.
Qed.

Lemma strip_idempotent (s : string) : strip (strip s) = strip s.
Proof.
  unfold strip.
  rewrite (lstrip_clean (rstrip (lstrip s)))
    by (apply rstrip_starts_clean, lstrip_starts_clean).
  apply rstrip_idempotent.
Qed.

Lemma has_char_lstrip (c : ascii) (s : string) :
  has_char c (lstrip s) = true -> has_char c s = true.
Proof.
  induction s as [| c' s IH]; cbn [lstrip]; [exact id |].
  destruct (is_space c'); [| exact id].
  intro H. cbn [has_char]. rewrite (IH H). apply orb_true_r.
Qed.

Lemma has_char_rstrip (c : ascii) (s : string) :
  has_char c (rstrip s) = true -> has_char c s = true.
Proof.
  induction s as [| c' s IH]; cbn [rstrip]; [exact id |].
  destruct (is_space c' && is_empty (rstrip s)); [discriminate |].
  cbn [has_char]. intro H. apply orb_prop in H as [H | H].
  - now rewrite H.
  - rewrite (IH H). apply orb_true_r.
Qed.

Lemma has_char_strip (c : ascii) (s : string) :
  has_char c s = false -> has_char c (strip s) = false.
Proof.
  intro H. destruct (has_char c (strip s)) eqn:E; [| reflexivity].
  apply has_char_rstrip, has_char_lstrip in E. congruence.
Qed.

Lemma space_differs (c c' : ascii) :
  is_space c' = true -> is_space c = false -> (c' =? c)%char = false.
Proof.
  intros H' H. destruct (c' =? c)%char eqn:E; [| reflexivity].
  apply Ascii.eqb_eq in E. subst. congruence.
Qed.

Lemma has_char_lstrip_keep (c : ascii) (s : string) :
  is_space c = false -> has_char c s = true -> has_char c (lstrip s) = true.
Proof.
  intro Hc. induction s as [| c' s IH]; cbn [lstrip has_char]; [exact id |].
  destruct (is_space c') eqn:E; [| exact id].
  rewrite (space_differs c c' E Hc). exact IH.
Qed.

Lemma has_char_rstrip_keep (c : ascii) (s : string) :
  is_space c = false -> has_char c s = true -> has_char c (rstrip s) = true.
Proof.
  intro Hc. induction s as [| c' s IH]; cbn [rstrip has_char]; [exact id |].
  intro H. destruct (is_space c') eqn:E.
  - rewrite (space_differs c c' E Hc) in H. cbn [orb] in H. specialize (IH H).
    destruct (rstrip s); [discriminate IH |].
    cbn [is_empty String.eqb andb has_char] in *. rewrite IH. apply orb_true_r.
  - cbn [andb has_char]. apply orb_prop in H as [-> | H]; [reflexivity |].
    rewrite (IH H). apply orb_true_r.
Qed.

(** A text that holds a character that is no white space is not blank. *)
Lemma strip_not_blank (c : ascii) (s : string) :
  is_space c = false -> has_char c s = true -> is_empty (strip s) = false.
Proof.
  intros Hc H. unfold strip.
  pose proof (has_char_rstrip_keep c _ Hc (has_char_lstrip_keep c s Hc H)) as K.
  destruct (rstrip (lstrip s)); [discriminate K | reflexivity].
Qed.

(** ** One turn of the loop *)

(** The text at index [i] starts with the dollar tag. *)
Definition at_tag (sql_text : string) : bool := prefix "$$" sql_text.

Lemma split_loop_tag (rest : string) (d : bool) (cur : string) (st : list string) :
  split_loop ("$$" ++ rest) d cur st = split_loop rest (negb d) (cur ++ "$$") st.
Proof. reflexivity. Qed.

Lemma split_loop_step (c : ascii) (rest : string) (d : bool) (cur : string)
    (st : list string) :
  at_tag (String c rest) = false ->
  split_loop (String c rest) d cur st
  = if (c =? ";")%char && negb d
    then split_loop rest d "" (push st cur)
    else split_loop rest d (cur ++ String c "") st.
Proof.
  unfold at_tag. cbn [prefix split_loop]. intro H.
  destruct rest as [| c2 rest]; [reflexivity |].
  destruct (ascii_dec "$" c) as [<- | Hc].
  - destruct (ascii_dec "$" c2) as [<- | Hc2].
    + destruct rest; vm_compute in H; discriminate H.
    + apply Ascii.eqb_neq in Hc2. rewrite Ascii.eqb_sym in Hc2. now rewrite Hc2.
  - apply Ascii.eqb_neq in Hc. rewrite Ascii.eqb_sym in Hc. now rewrite Hc.
Qed.

Lemma at_tag_cases (s : string) :
  s = "" \/ (exists rest, s = "$$" ++ rest)
  \/ (exists c rest, s = String c rest /\ at_tag s = false).
Proof.
  destruct s as [| c s]; [now left | right].
  destruct (at_tag (String c s)) eqn:E; [left | right; now exists c, s].
  unfold at_tag in E. cbn [prefix] in E.
  destruct (ascii_dec "$" c) as [<- | ?]; [| discriminate E].
  destruct s as [| c2 s]; cbn [prefix] in E; [discriminate E |].
  destruct (ascii_dec "$" c2) as [<- | ?]; [| discriminate E].
  now exists s.
Qed.

(** Induction along the loop: a property that holds at the end of the text
    and is carried over a tag and over a single character holds always. *)
Lemma split_loop_ind (P : string -> Prop) :
  P "" ->
  (forall rest, P rest -> P ("$$" ++ rest)) ->
  (forall c rest, at_tag (String c rest) = false -> P rest -> P (String c rest)) ->
  forall s, P s.
Proof.
  intros Hnil Htag Hstep s.
  assert (H : forall n s, String.length s <= n -> P s).
  { clear s. induction n as [| n IH]; intros s Hlen.
    - destruct s; [exact Hnil | cbn in Hlen; lia].
    - destruct (at_tag_cases s) as [-> | [(rest & ->) | (c & rest & -> & Hc)]].
      + exact Hnil.
      + apply Htag, IH. cbn in Hlen. lia.
      + apply Hstep; [exact Hc |]. apply IH. cbn in Hlen. lia. }
  now apply (H (String.length s)).
Qed.

(** ** Statements are clean *)

Definition clean (stmt : string) : Prop := stmt <> "" /\ strip stmt = stmt.

Lemma push_clean (st : list string) (cur : string) :
  Forall clean st -> Forall clean (push st cur).
Proof.
  intro H. unfold push.
  destruct (is_empty (strip cur)) eqn:E; cbn [negb]; [exact H |].
  apply Forall_app. split; [exact H |].
  constructor; [| constructor]. split.
  - intro Heq. rewrite Heq in E. discriminate E.
  - apply strip_idempotent.
Qed.

Lemma split_loop_clean (s : string) :
  forall d cur st, Forall clean st -> Forall clean (split_loop s d cur st).
Proof.
  induction s as [| rest IH | c rest Hc IH] using split_loop_ind; intros d cur st H.
  - now apply push_clean.
  - rewrite split_loop_tag. now apply IH.
  - rewrite (split_loop_step _ _ _ _ _ Hc).
    destruct ((c =? ";")%char && negb d); apply IH; [now apply push_clean | exact H].
Qed.

(** X23: every statement the splitter returns is non-empty and has no
    white space at either end; blank stretches between semicolons give no
    statement. *)
Theorem statements_are_stripped (sql_text : string) :
  Forall (fun stmt => stmt <> "" /\ strip stmt = stmt) (split_sql_preserve_dollar sql_text).
Proof.
  unfold split_sql_preserve_dollar. apply split_loop_clean. constructor.
Qed.

(** ** Text without a semicolon *)

Lemma split_loop_no_semicolon (s : string) :
  has_char ";" s = false ->
  forall d cur st, split_loop s d cur st = push st (cur ++ s).
Proof.
  induction s as [| rest IH | c rest Hc IH] using split_loop_ind; intros Hs d cur st.
  - now rewrite append_empty_r.
  - rewrite split_loop_tag, IH by exact Hs. now rewrite append_assoc.
  - cbn [has_char] in Hs. apply orb_false_elim in Hs as [Hsemi Hrest].
    rewrite (split_loop_step _ _ _ _ _ Hc), Hsemi. cbn [andb].
    rewrite IH by exact Hrest. now rewrite append_assoc.
Qed.

(** X24: a text without a semicolon is one statement, the stripped text, or
    no statement when it is blank; dollar tags in it change nothing. *)
Theorem text_without_semicolon (sql_text : string) :
  has_char ";" sql_text = false ->
  split_sql_preserve_dollar sql_text
  = if is_empty (strip sql_text) then [] else [strip sql_text].
Proof.
  intro H. unfold split_sql_preserve_dollar.
  rewrite (split_loop_no_semicolon _ H). unfold push. cbn [append].
  now destruct (is_empty (strip sql_text)).
Qed.

Lemma text_without_semicolon_witness :
  split_sql_preserve_dollar "  SELECT $$a$$  " = ["SELECT $$a$$"].
Proof.
  apply (text_without_semicolon "  SELECT $$a$$  "). reflexivity.
Defined.

(** ** Segments without a tag *)

Lemma no_dollar_not_tag (c : ascii) (rest : string) :
  (c =? "$")%char = false -> at_tag (String c rest) = false.
Proof.
  intro H. unfold at_tag. cbn [prefix].
  destruct (ascii_dec "$" c) as [<- | ?]; [discriminate H | reflexivity].
Qed.

(** Inside a dollar block, or on a stretch without a semicolon, the loop
    only copies. *)
Lemma split_loop_copies (seg rest : string) (d : bool) (cur : string) (st : list string) :
  has_char "$" seg = false ->
  d = true \/ has_char ";" seg = false ->
  split_loop (seg ++ rest) d cur st = split_loop rest d (cur ++ seg) st.
Proof.
  revert cur. induction seg as [| c seg IH]; intros cur Hd Hsemi; cbn [append].
  - now rewrite append_empty_r.
  - cbn [has_char] in Hd. apply orb_false_elim in Hd as [Hc Hseg].
    rewrite (split_loop_step _ _ _ _ _ (no_dollar_not_tag c _ Hc)).
    assert (Hcond : (c =? ";")%char && negb d = false).
    { destruct Hsemi as [-> | Hsemi]; [apply andb_false_r |].
      cbn [has_char] in Hsemi. apply orb_false_elim in Hsemi as [-> _]. reflexivity. }
    rewrite Hcond, IH, append_assoc; [reflexivity | exact Hseg |].
    destruct Hsemi as [-> | Hsemi]; [now left | right].
    cbn [has_char] in Hsemi. now apply orb_false_elim in Hsemi as [_ ?].
Qed.

(** X25: a block between two dollar tags stays in one statement whatever
    semicolons it holds: with no other tag and no semicolon outside the
    block, the whole text is a single statement. *)
Theorem dollar_block_is_kept_whole (before body after : string) :
  has_char "$" before = false -> has_char ";" before = false ->
  has_char "$" body = false ->
  has_char "$" after = false -> has_char ";" after = false ->
  split_sql_preserve_dollar (before ++ "$$" ++ body ++ "$$" ++ after)
  = [strip (before ++ "$$" ++ body ++ "$$" ++ after)].
Proof.
  intros Hb1 Hb2 Hbody Ha1 Ha2. unfold split_sql_preserve_dollar.
  rewrite (split_loop_copies before _ false "" [] Hb1 (or_intror Hb2)).
  rewrite split_loop_tag. cbn [negb].
  rewrite (split_loop_copies body _ true _ [] Hbody (or_introl eq_refl)).
  rewrite split_loop_tag. cbn [negb].
  rewrite (split_loop_no_semicolon after Ha2).
  cbn [append]. rewrite !append_assoc. unfold push.
  assert (Hne : is_empty (strip (before ++ "$$" ++ body ++ "$$" ++ after)) = false).
  { apply (strip_not_blank "$"); [reflexivity |].
    rewrite has_char_append. cbn [append has_char Ascii.eqb]. apply orb_true_r. }
  now rewrite Hne.
Qed.

Lemma dollar_block_is_kept_whole_witness :
  split_sql_preserve_dollar "CREATE FUNCTION f() AS $$ BEGIN; END; $$ LANGUAGE sql "
  = [strip "CREATE FUNCTION f() AS $$ BEGIN; END; $$ LANGUAGE sql "].
Proof.
  apply (dollar_block_is_kept_whole "CREATE FUNCTION f() AS " " BEGIN; END; " " LANGUAGE sql ");
    reflexivity.
Defined.

(** ** Splitting at a semicolon *)

Lemma push_from_empty (st : list string) (cur : string) :
  push st cur = (st ++ push [] cur)%list.
Proof.
  unfold push. destruct (negb (is_empty (strip cur))); [reflexivity |].
  now rewrite app_nil_r.
Qed.

Lemma split_loop_from_empty (s : string) :
  forall d cur st, split_loop s d cur st = (st ++ split_loop s d cur [])%list.
Proof.
  induction s as [| rest IH | c rest Hc IH] using split_loop_ind; intros d cur st.
  - apply push_from_empty.
  - rewrite !split_loop_tag. apply IH.
  - rewrite !(split_loop_step _ _ _ _ _ Hc).
    destruct ((c =? ";")%char && negb d); [| apply IH].
    rewrite (IH d "" (push st cur)), (IH d "" (push [] cur)), push_from_empty.
    now rewrite app_assoc.
Qed.

(** X26: a semicolon outside dollar tags ends a statement: when the text up
    to the first semicolon has no tag, the result is that stretch, stripped
    (dropped when blank), followed by the statements of the rest. *)
Theorem split_at_first_semicolon (first rest : string) :
  has_char "$" first = false -> has_char ";" first = false ->
  split_sql_preserve_dollar (first ++ ";" ++ rest)
  = ((if is_empty (strip first) then [] else [strip first])
     ++ split_sql_preserve_dollar rest)%list.
Proof.
  intros Hd Hs. unfold split_sql_preserve_dollar.
  rewrite (split_loop_copies first _ false "" [] Hd (or_intror Hs)).
  cbn [append].
  rewrite (split_loop_step ";" rest false first [] eq_refl). cbn [Ascii.eqb andb negb].
  change (String.eqb ";" ";") with true.
  rewrite split_loop_from_empty. unfold push.
  now destruct (is_empty (strip first)).
Qed.

Lemma split_at_first_semicolon_witness :
  split_sql_preserve_dollar (" CREATE SCHEMA s " ++ ";" ++ " ; DROP TABLE t")
  = ((if is_empty (strip " CREATE SCHEMA s ") then [] else [strip " CREATE SCHEMA s "])
     ++ split_sql_preserve_dollar " ; DROP TABLE t")%list.
Proof.
  apply (split_at_first_semicolon " CREATE SCHEMA s " " ; DROP TABLE t"); reflexivity.
Defined.

(** X27: in a text without a dollar sign, no returned statement contains a
    semicolon. *)
Theorem no_semicolon_survives (sql_text : string) :
  has_char "$" sql_text = false ->
  Forall (fun stmt => has_char ";" stmt = false) (split_sql_preserve_dollar sql_text).
Proof.
  intro H. unfold split_sql_preserve_dollar.
  assert (G : forall cur st,
             has_char ";" cur = false ->
             Forall (fun stmt => has_char ";" stmt = false) st ->
             Forall (fun stmt => has_char ";" stmt = false) (split_loop sql_text false cur st)).
  { assert (Hpush : forall cur st,
               has_char ";" cur = false ->
               Forall (fun stmt => has_char ";" stmt = false) st ->
               Forall (fun stmt => has_char ";" stmt = false) (push st cur)).
    { intros cur st Hcur Hst. unfold push.
      destruct (negb (is_empty (strip cur))); [| exact Hst].
      apply Forall_app. split; [exact Hst |].
      constructor; [now apply has_char_strip | constructor]. }
    induction sql_text as [| c s IH]; intros cur st Hcur Hst.
    - now apply Hpush.
    - cbn [has_char] in H. apply orb_false_elim in H as [Hc Hs].
      rewrite (split_loop_step _ _ _ _ _ (no_dollar_not_tag c _ Hc)). cbn [negb].
      rewrite andb_true_r. destruct (c =? ";")%char eqn:E.
      + apply IH; [exact Hs | reflexivity | now apply Hpush].
      + apply IH; [exact Hs | | exact Hst].
        rewrite has_char_append, Hcur. cbn [has_char orb]. now rewrite E. }
  apply G; [reflexivity | constructor].
Qed.

Lemma no_semicolon_survives_witness :
  Forall (fun stmt => has_char ";" stmt = false)
    (split_sql_preserve_dollar "CREATE TABLE t (a int); INSERT INTO t VALUES (1);").
Proof.
  apply (no_semicolon_survives "CREATE TABLE t (a int); INSERT INTO t VALUES (1);").
  reflexivity.
Defined.

(** ** The bucket name *)

Definition arn_prefix : string := "arn:aws:s3:::".

Lemma prefix_append (p s : string) : prefix p (p ++ s) = true.
Proof.
  induction p as [| c p IH]; cbn [append prefix]; [now destruct s |].
  destruct (ascii_dec c c) as [_ | Hc]; [exact IH | now elim Hc].
Qed.

Lemma substring_more (n : nat) (s : string) : substring 0 (n + String.length s) s = s.
Proof.
  revert n. induction s as [| c s IH]; intro n.
  - cbn. destruct (n + 0)%nat; reflexivity.
  - cbn [String.length]. rewrite Nat.add_succ_r. cbn [substring].
    now rewrite IH.
Qed.

Lemma after_first_skip (sep : string) (c : ascii) (s : string) :
  prefix sep (String c s) = false -> after_first sep (String c s) = after_first sep s.
Proof. intro H. cbn [after_first]. now rewrite H. Qed.

Lemma after_first_here (sep s : string) :
  prefix sep (sep ++ s) = true ->
  after_first sep (sep ++ s)
  = Some (substring (String.length sep) (String.length (sep ++ s)) (sep ++ s)).
Proof.
  intro H. destruct (sep ++ s) as [| c t]; cbn [after_first]; now rewrite H.
Qed.

(** X28: a bucket given as an S3 ARN and the same bucket given by its plain
    name yield the same name; an absent or empty value yields [None]. *)
Theorem bucket_name_of_arn (name : string) :
  name <> "" -> prefix arn_prefix name = false ->
  extract_bucket_name (VStr (arn_prefix ++ name)) = Ok (VStr name)
  /\ extract_bucket_name (VStr name) = Ok (VStr name)
  /\ extract_bucket_name VNone = Ok VNone
  /\ extract_bucket_name (VStr "") = Ok VNone.
Proof.
  intros Hne Hplain. repeat split.
  - unfold extract_bucket_name.
    change (truthy (VStr (arn_prefix ++ name))) with true. cbn [negb].
    change "arn:aws:s3:::" with arn_prefix. rewrite prefix_append.
    assert (Hafter : after_first ":::" (arn_prefix ++ name) = Some name).
    { unfold arn_prefix. cbn [append].
      do 10 (rewrite after_first_skip by reflexivity).
      change (after_first ":::" (":::" ++ name) = Some name).
      rewrite (after_first_here ":::" name (prefix_append ":::" name)).
      cbn [append String.length substring].
      change (S (S (S (String.length name)))) with (3 + String.length name)%nat.
      now rewrite (substring_more 3 name). }
    now rewrite Hafter.
  - unfold extract_bucket_name.
    replace (truthy (VStr name)) with true by (destruct name; [now elim Hne | reflexivity]).
    cbn [negb]. change "arn:aws:s3:::" with arn_prefix. now rewrite Hplain.
Qed.

Lemma bucket_name_of_arn_witness :
  extract_bucket_name (VStr (arn_prefix ++ "udacity-kb-docs")) = Ok (VStr "udacity-kb-docs")
  /\ extract_bucket_name (VStr "udacity-kb-docs") = Ok (VStr "udacity-kb-docs")
  /\ extract_bucket_name VNone = Ok VNone
  /\ extract_bucket_name (VStr "") = Ok VNone.
Proof.
  apply (bucket_name_of_arn "udacity-kb-docs"); [discriminate | reflexivity].
Defined.

End script_properties.

(* ===================================================================== *)
(** * scripts/test_kb_query.py: the context of the end-to-end run *)
(* ===================================================================== *)

Module test_kb_query.
Import Py bedrock_utils.
Local Open Scope py_scope.

(** Lines 38-44: what one result appends to [context_pieces]. *)
Definition context_piece (r : value) : result value :=
  let* text := get r "text" or get r "contents" or Ok (VStr "") in
  if truthy text then Ok text
  else
    let* meta := get r "metadata" or Ok (VDict []) in
    if truthy meta then Ok (VStr (json_dumps meta))
    else
      let* doc_id := get r "id" in
      Ok (VStr ("DocumentID:" ++ str doc_id)).

(** [sep.join(pieces)]: every piece has to be a string. *)
Fixpoint str_items (i : nat) (pieces : list value) : result (list string) :=
  match pieces with
  | [] => Ok []
  | VStr s :: pieces' =>
      match str_items (S i) pieces' with
      | Ok l => Ok (s :: l)
      | Raise e => Raise e
      end
  | p :: _ =>
      Raise (TypeError ("sequence item " ++ repr_int (Z.of_nat i)
                          ++ ": expected str instance, " ++ type_name p ++ " found"))
  end.

Definition no_context : string := "No contextual passages found.".

(** Lines 36-46: the context built from the first three results. *)
Definition build_context (results : list value) : result string :=
  let* context_pieces := map_result context_piece (firstn 3 results) in
  match context_pieces with
  | [] => Ok no_context
  | _ :: _ =>
      let* items := str_items 0 context_pieces in
      Ok (String.concat (newline ++ newline) items)
  end.

End test_kb_query.

Module test_kb_query_properties.
Import Py bedrock_utils test_kb_query.
Local Open Scope py_scope.

(** A passage as the normaliser returns it for the documented shapes: a
    string as text and a dict as metadata. *)
Definition plain_passage (r : value) : Prop :=
  exists doc_id s metadata score, r = passage doc_id (VStr s) (VDict metadata) score.

(** The piece of a passage: its text; when that is empty the JSON of its
    metadata; when that is empty too, its id behind a fixed label. *)
Definition piece_of (r : value) (piece : string) : Prop :=
  exists doc_id s metadata score,
    r = passage doc_id (VStr s) (VDict metadata) score
    /\ ((s <> "" /\ piece = s)
        \/ (s = "" /\ metadata <> [] /\ piece = json_dumps (VDict metadata))
        \/ (s = "" /\ metadata = [] /\ piece = "DocumentID:" ++ str doc_id)).

Lemma plain_passage_piece (r : value) :
  plain_passage r ->
  exists piece, context_piece r = Ok (VStr piece) /\ piece_of r piece /\ piece <> "".
Proof.
  intros (doc_id & s & metadata & score & ->).
  unfold context_piece, passage. cbn [get dict_get lookup String.eqb Ascii.eqb Bool.eqb].
  destruct s as [| c s].
  - cbn [py_or truthy String.eqb negb bind].
    destruct metadata as [| kv metadata]; cbn [py_or truthy bind].
    + eexists. split; [reflexivity |]. split; [| discriminate].
      exists doc_id, "", [], score. split; [reflexivity |]. right. right. now repeat split.
    + eexists. split; [reflexivity |]. split; [| discriminate].
      exists doc_id, "", (kv :: metadata), score. split; [reflexivity |].
      right. left. repeat split. discriminate.
  - cbn [py_or truthy String.eqb negb bind].
    eexists. split; [reflexivity |]. split; [| discriminate].
    exists doc_id, (String c s), metadata, score. split; [reflexivity |].
    left. split; [discriminate | reflexivity].
Qed.

Lemma str_items_of_strings (items : list string) (i : nat) :
  str_items i (map VStr items) = Ok items.
Proof.
  revert i. induction items as [| s items IH]; intro i; cbn [map str_items]; [reflexivity |].
  now rewrite IH.
Qed.

Lemma pieces_of_plain_passages (results : list value) :
  Forall plain_passage results ->
  exists items,
    map_result context_piece results = Ok (map VStr items)
    /\ Forall2 piece_of results items
    /\ Forall (fun s => s <> "") items.
Proof.
  induction 1 as [| r rs Hr _ (items & Hmap & Hpieces & Hne)]; cbn [map_result].
  - exists []. repeat split; constructor.
  - destruct (plain_passage_piece r Hr) as (piece & -> & Hpiece & Hp).
    rewrite Hmap. exists (piece :: items). repeat split; now constructor.
Qed.

Lemma Forall_firstn {A : Type} (P : A -> Prop) (n : nat) (l : list A) :
  Forall P l -> Forall P (firstn n l).
Proof.
  intro H. revert n. induction H as [| x l Hx _ IH]; intros [| n]; cbn [firstn];
    constructor; [exact Hx | apply IH].
Qed.

(** X29: for passages with a string as text and a dict as metadata, the
    script builds its context without an exception. With no passage the
    context is the fixed sentence; otherwise it is the join, by blank lines,
    of one non-empty piece for each of the first three passages, in their
    order: the text of the passage, or the JSON of its metadata when the text
    is empty, or DocumentID: and its id when the metadata is empty too. *)
Theorem script_context (results : list value) :
  Forall plain_passage results ->
  exists items,
    Forall2 piece_of (firstn 3 results) items
    /\ Forall (fun s => s <> "") items
    /\ build_context results
       = Ok match results with
            | [] => no_context
            | _ :: _ => String.concat (newline ++ newline) items
            end.
Proof.
  intro H.
  destruct (pieces_of_plain_passages (firstn 3 results) (Forall_firstn _ 3 _ H))
    as (items & Hmap & Hpieces & Hne).
  exists items. split; [exact Hpieces |]. split; [exact Hne |].
  unfold build_context. rewrite Hmap. cbn [bind].
  destruct results as [| r results].
  - inversion Hpieces. reflexivity.
  - cbn [firstn] in Hpieces. inversion Hpieces as [| ? piece ? items' ? ? Heq1 Heq2]; subst.
    cbn [map]. change (VStr piece :: map VStr items') with (map VStr (piece :: items')).
    now rewrite str_items_of_strings.
Qed.

Definition four_passages : list value :=
  [passage (VStr "d1") (VStr "bucket 2 m3") (VDict []) VNone;
   passage (VStr "d2") (VStr "") (VDict [("page", VInt 3)]) VNone;
   passage (VStr "d3") (VStr "") (VDict []) VNone;
   passage (VStr "d4") (VStr "not used") (VDict []) VNone].

Lemma script_context_witness :
  exists items,
    Forall2 piece_of (firstn 3 four_passages) items
    /\ Forall (fun s => s <> "") items
    /\ build_context four_passages = Ok (String.concat (newline ++ newline) items).
Proof.
  apply (script_context four_passages).
  repeat constructor; now do 4 eexists.
Defined.

(** The context of the four passages above. *)
Example script_context_run :
  build_context four_passages
  = Ok (String.concat (newline ++ newline)
          ["bucket 2 m3"; json_dumps (VDict [("page", VInt 3)]); "DocumentID:d3"]).
Proof. reflexivity. Qed.

End test_kb_query_properties.
